(** * dedupe_cc_dist: checkpointed, sharded verification of candidate pairs

    A shallow embedding of [dedupe/dedupe_cc_dist.py].  The working
    directory is a finite map from paths to file contents, every call that
    reaches the operating system is a primitive of a small state and
    exception monad, and the Python functions [process_batch],
    [load_minhashes] and [main] are written over these primitives, line by
    line. *)

From Stdlib Require Import ZArith Ascii String List Lia.
From stdpp Require Import base option list gmap strings pretty.

Local Open Scope Z_scope.

(** ** Data *)

(** A candidate pair: two positions in the document sequence. *)
Definition Pair : Type := Z * Z.

(** A [LeanMinHash]: the vector of its hash values.  Nothing below looks
    inside one. *)
Definition Minhash : Type := list Z.

(** What [pickle.dump] writes and [pickle.load] reads back. *)
Inductive pickle : Type :=
  | PInt (n : Z)
  | PPairs (l : list Pair)
  | PHashes (l : list Minhash).

(** A file is either empty (freshly touched, or opened for writing and not
    yet written) or holds one pickled object. *)
Inductive content : Type :=
  | Empty
  | Pickled (o : pickle).

(** The objects that line 177 passes around and that a batch may hold. *)
Inductive pyobj : Type :=
  | OPair (p : Pair)
  | OHash (m : Minhash)
  | OTriple (p : Pair) (m1 m2 : Minhash).

(** The arguments of one [compare_pair] task. *)
Definition Task : Type := Pair * Minhash * Minhash.

(** [TqdmMultiProcessPool]: an external library; [pool.map] turns the tasks
    of a batch into one truth value per task. *)
Record Pool : Type := { pool_map : list Task → list bool }.

(** What the module imports and does not define. *)
Record Externals : Type := {
  num_docs : Z;                         (* CommonCrawlDataset().num_docs() *)
  pickled_size : content → Z;           (* bytes on disk, os.path.getsize *)
  TqdmMultiProcessPool : Z → Pool
}.

(** ** Exceptions and outcomes *)

Inductive exn : Type :=
  | TypeError
  | ValueError
  | IndexError
  | EOFError
  | FileNotFoundError
  | ZeroDivisionError
  | SystemExit (code : Z).

(** A computation returns, raises, or is killed from outside. *)
Inductive outcome (A : Type) : Type :=
  | Ok (a : A)
  | Raise (e : exn)
  | Killed.
Arguments Ok {A} a.
Arguments Raise {A} e.
Arguments Killed {A}.

(** The exit status the interpreter reports for an outcome of [main]:
    [sys.exit(n)] gives [n], an uncaught exception gives 1. *)
Definition exit_status {A} (o : outcome A) : option Z :=
  match o with
  | Ok _ => Some 0
  | Raise (SystemExit n) => Some n
  | Raise _ => Some 1
  | Killed => None
  end.

(** ** The working directory and the calls that touch it *)

Inductive Op : Type :=
  | OpExists (p : string)
  | OpTouch (p : string)
  | OpOpenWrite (p : string)
  | OpDump (p : string) (o : pickle)
  | OpOpenRead (p : string)
  | OpGetsize (p : string)
  | OpRename (src dst : string)
  | OpRemove (p : string).

(** The calls that can change the directory; the others only read it. *)
Definition modifies (o : Op) : bool :=
  match o with
  | OpExists _ | OpOpenRead _ | OpGetsize _ => false
  | OpTouch _ | OpOpenWrite _ | OpDump _ _ | OpRename _ _ | OpRemove _ => true
  end.

(** [files] is the directory, [log] the calls issued so far, oldest first.
    [kill_after = Some k] lets [k] more calls through and kills the process
    at the next one; [None] never kills. *)
Record World : Type := {
  files : gmap string content;
  log : list Op;
  kill_after : option nat
}.

Definition boot (fs : gmap string content) : World :=
  {| files := fs; log := []; kill_after := None |}.

Definition boot_kill (k : nat) (fs : gmap string content) : World :=
  {| files := fs; log := []; kill_after := Some k |}.

Definition M (A : Type) : Type := World → outcome A * World.

Definition run {A} (m : M A) (w : World) : outcome A * World := m w.

Global Instance M_ret : MRet M := λ A a w, (Ok a, w).

Global Instance M_bind : MBind M := λ A B f m w,
  match m w with
  | (Ok a, w') => f a w'
  | (Raise e, w') => (Raise e, w')
  | (Killed, w') => (Killed, w')
  end.

Definition raise {A} (e : exn) : M A := λ w, (Raise e, w).

(** One call into the operating system: it is logged, and [act] says what it
    returns and what the directory is afterwards. *)
Definition syscall {A} (o : Op)
    (act : gmap string content → outcome A * gmap string content) : M A :=
  λ w,
    match kill_after w with
    | Some O => (Killed, w)
    | k =>
        let '(r, fs) := act (files w) in
        (r, {| files := fs; log := log w ++ [o]; kill_after := Nat.pred <$> k |})
    end.

(** [os.path.join(working_directory, name)] for a relative [name]. *)
Definition ends_with_slash (s : string) : bool :=
  match rev (list_ascii_of_string s) with
  | c :: _ => if Ascii.ascii_dec c "/"%char then true else false
  | [] => false
  end.

Definition os_path_join (dir name : string) : string :=
  if decide (dir = "") then name
  else if ends_with_slash dir then dir +:+ name
  else dir +:+ "/" +:+ name.

Definition os_path_exists (p : string) : M bool :=
  syscall (OpExists p) (λ fs,
    match fs !! p with
    | Some _ => (Ok true, fs)
    | None => (Ok false, fs)
    end).

(** [Path(p).touch()]: creates an empty file, leaves an existing one. *)
Definition touch (p : string) : M unit :=
  syscall (OpTouch p) (λ fs,
    match fs !! p with
    | Some _ => (Ok tt, fs)
    | None => (Ok tt, <[p := Empty]> fs)
    end).

(** [pickle.dump(obj, open(p, "wb"))]: opening truncates, dumping writes. *)
Definition open_wb (p : string) : M unit :=
  syscall (OpOpenWrite p) (λ fs, (Ok tt, <[p := Empty]> fs)).

Definition dump_to (o : pickle) (p : string) : M unit :=
  syscall (OpDump p o) (λ fs, (Ok tt, <[p := Pickled o]> fs)).

Definition pickle_dump (o : pickle) (p : string) : M unit :=
  open_wb p;; dump_to o p.

(** [pickle.load(open(p, "rb"))]. *)
Definition pickle_load (p : string) : M pickle :=
  syscall (OpOpenRead p) (λ fs,
    match fs !! p with
    | None => (Raise FileNotFoundError, fs)
    | Some Empty => (Raise EOFError, fs)
    | Some (Pickled o) => (Ok o, fs)
    end).

Definition os_path_getsize (ext : Externals) (p : string) : M Z :=
  syscall (OpGetsize p) (λ fs,
    match fs !! p with
    | None => (Raise FileNotFoundError, fs)
    | Some c => (Ok (pickled_size ext c), fs)
    end).

(** [os.rename(src, dst)] (POSIX): [dst] is replaced when it exists. *)
Definition os_rename (src dst : string) : M unit :=
  syscall (OpRename src dst) (λ fs,
    match fs !! src with
    | None => (Raise FileNotFoundError, fs)
    | Some c => (Ok tt, <[dst := c]> (delete src fs))
    end).

Definition os_remove (p : string) : M unit :=
  syscall (OpRemove p) (λ fs,
    match fs !! p with
    | None => (Raise FileNotFoundError, fs)
    | Some _ => (Ok tt, delete p fs)
    end).

(** The four files of the checkpoint protocol (lines 43-46 and 135-138). *)
Definition checkpoint_file (wd : string) : string := os_path_join wd "checkpoint.pkl".
Definition checkpoint_temp_file (wd : string) : string := os_path_join wd "checkpoint_temp.pkl".
Definition checkpoint_old_file (wd : string) : string := os_path_join wd "checkpoint_old.pkl".
Definition transaction_lock (wd : string) : string := os_path_join wd ".transaction_lock".

(** Line 73: [f"duplicates_{start_offset}.pkl"]. *)
Definition duplicates_file (wd : string) (start_offset : Z) : string :=
  os_path_join wd ("duplicates_" +:+ pretty start_offset +:+ ".pkl").

(** Line 95: [f"minhashes_{offset}.pkl"]. *)
Definition minhashes_file (wd : string) (offset : Z) : string :=
  os_path_join wd ("minhashes_" +:+ pretty offset +:+ ".pkl").

(** ** main, lines 140-150: repairing an interrupted transaction *)

Definition main_recover (wd : string) : M unit :=
  locked ← os_path_exists (transaction_lock wd);
  if locked : bool then
    has_temp ← os_path_exists (checkpoint_temp_file wd);
    (if has_temp : bool then
       has_old ← os_path_exists (checkpoint_old_file wd);
       (if has_old : bool
        then os_rename (checkpoint_old_file wd) (checkpoint_file wd)
        else mret tt);;
       os_remove (checkpoint_temp_file wd)
     else mret tt);;
    os_remove (transaction_lock wd)
  else mret tt.

(** ** main, lines 152-157: where to resume *)

(** [pickle.load(...) + 1]: only an integer can be added to 1. *)
Definition add_one (o : pickle) : M Z :=
  match o with
  | PInt n => mret (n + 1)
  | _ => raise TypeError
  end.

Definition main_load_checkpoint (wd : string) (offset_start : Z) : M Z :=
  found ← os_path_exists (checkpoint_file wd);
  if found : bool then
    stored ← pickle_load (checkpoint_file wd);
    add_one stored
  else mret offset_start.

(** Lines 140-157 together: what [main] does to the checkpoint files before
    it enters its loop. *)
Definition main_startup (wd : string) (offset_start : Z) : M Z :=
  main_recover wd;; main_load_checkpoint wd offset_start.

(** ** process_batch, lines 42-86 *)

(** [for (pair, m1, m2) in batch] and [pair, _, _ = batch[i]]: only a triple
    unpacks into three names. *)
Definition unpack3 (o : pyobj) : M Task :=
  match o with
  | OTriple p m1 m2 => mret (p, m1, m2)
  | OPair _ => raise ValueError
  | OHash _ => raise TypeError
  end.

(** Lines 49-52. *)
Fixpoint build_tasks (batch : list pyobj) (tasks : list Task) : M (list Task) :=
  match batch with
  | [] => mret tasks
  | o :: rest => t ← unpack3 o; build_tasks rest (tasks ++ [t])
  end.

(** Lines 64-71: [i] counts the results seen so far. *)
Fixpoint collect_duplicates (batch : list pyobj) (i : nat) (results : list bool)
    (duplicates : list Pair) : M (list Pair) :=
  match results with
  | [] => mret duplicates
  | is_duplicate :: rest =>
      if negb is_duplicate then collect_duplicates batch (S i) rest duplicates
      else
        match batch !! i with
        | None => raise IndexError
        | Some o =>
            '(pr, _, _) ← unpack3 o;
            collect_duplicates batch (S i) rest (duplicates ++ [pr])
        end
  end.

(** The interrupt handler is swapped on lines 59 and 86; that changes no
    file and is left out. *)
Definition process_batch (pool : Pool) (batch : list pyobj) (start_offset : Z)
    (working_directory : string) : M unit :=
  tasks ← build_tasks batch [];
  let results := pool_map pool tasks in
  touch (transaction_lock working_directory);;
  let last_offset := start_offset + Z.of_nat (length batch) in
  duplicates ← collect_duplicates batch 0 results [];
  pickle_dump (PPairs duplicates) (duplicates_file working_directory start_offset);;
  pickle_dump (PInt last_offset) (checkpoint_temp_file working_directory);;
  has_checkpoint ← os_path_exists (checkpoint_file working_directory);
  (if has_checkpoint : bool
   then os_rename (checkpoint_file working_directory) (checkpoint_old_file working_directory)
   else mret tt);;
  os_rename (checkpoint_temp_file working_directory) (checkpoint_file working_directory);;
  os_remove (transaction_lock working_directory).

(** ** load_minhashes, lines 88-107 *)

(** The offsets the [while] loop of lines 94-97 visits: 0, 1000, 2000, ...
    as long as they are below [document_count]. *)
Definition shard_offsets (document_count : Z) : list Z :=
  (λ i : nat, 1000 * Z.of_nat i) <$> seq 0 (Z.to_nat ((document_count + 999) `div` 1000)).

(** Lines 94-97.  The loop builds [minhashes_file] and adds its size to
    [total_file_size]; it never appends to [minhashes_files]. *)
Fixpoint scan_shards (ext : Externals) (wd : string) (offsets : list Z)
    (minhashes_files : list string) (total_file_size : Z) : M (list string * Z) :=
  match offsets with
  | [] => mret (minhashes_files, total_file_size)
  | offset :: rest =>
      size ← os_path_getsize ext (minhashes_file wd offset);
      scan_shards ext wd rest minhashes_files (total_file_size + size)
  end.

(** [minhashes_temp = pickle.load(...)], then one [append] per element. *)
Definition as_hashes (o : pickle) : M (list Minhash) :=
  match o with
  | PHashes l => mret l
  | PPairs _ => raise TypeError
  | PInt _ => raise TypeError
  end.

(** Lines 101-105; the progress bar only displays. *)
Fixpoint read_shards (ext : Externals) (minhashes_files : list string)
    (minhashes : list Minhash) : M (list Minhash) :=
  match minhashes_files with
  | [] => mret minhashes
  | file :: rest =>
      minhashes_temp ← pickle_load file ≫= as_hashes;
      _ ← os_path_getsize ext file;
      read_shards ext rest (minhashes ++ minhashes_temp)
  end.

Definition load_minhashes (ext : Externals) (working_directory : string) : M (list Minhash) :=
  let minhashes_files : list string := [] in
  let document_count := num_docs ext in
  '(minhashes_files, total_file_size) ←
    scan_shards ext working_directory (shard_offsets document_count) minhashes_files 0;
  read_shards ext minhashes_files [].

(** ** main, lines 109-184 *)

Definition sys_exit {A} (code : Z) : M A := raise (SystemExit code).

(** [pairs = pickle.load(...)]: the pair file holds a list of pairs. For a
    file that holds something else Python goes on and raises later, at
    [len(pairs)] on line 124 or at the unpacking on line 176; here the load
    itself raises. *)
Definition as_pairs (o : pickle) : M (list Pair) :=
  match o with
  | PPairs l => mret l
  | PHashes _ => raise TypeError
  | PInt _ => raise TypeError
  end.

(** Line 125, [int(pair_count / instance_count)]: the quotient truncated
    towards zero.  The division is carried out in double precision, which
    gives the exact truncated quotient for every [pair_count] below 2^53. *)
Definition pairs_per_instance (pair_count instance_count : Z) : Z :=
  pair_count ÷ instance_count.

(** Lines 126-127. *)
Definition offset_start (pair_count instance_count instance : Z) : Z :=
  pairs_per_instance pair_count instance_count * instance.

Definition next_offset (pair_count instance_count instance : Z) : Z :=
  offset_start pair_count instance_count instance
  + pairs_per_instance pair_count instance_count.

(** [l[i]] for a Python list: negative indices count from the end. *)
Definition getitem {A} (l : list A) (i : Z) : M A :=
  let n := Z.of_nat (length l) in
  let j := if i <? 0 then i + n else i in
  if (0 <=? j) && (j <? n) then
    match l !! Z.to_nat j with
    | Some x => mret x
    | None => raise IndexError
    end
  else raise IndexError.

(** [list.append] accepts exactly one argument. *)
Definition list_append (self : list pyobj) (args : list pyobj) : M (list pyobj) :=
  match args with
  | [x] => mret (self ++ [x])
  | _ => raise TypeError
  end.

(** Lines 180 and 184 call [process_batch(pool, batch, working_directory)]:
    three arguments for four required parameters, so Python raises before
    the body of [process_batch] runs. *)
Definition process_batch_3 (pool : Pool) (batch : list pyobj)
    (working_directory : string) : M unit :=
  raise TypeError.

(** Lines 164-181, one iteration per remaining pair; [offset] is the index
    [enumerate] gives to the head of [pairs].  The result is the batch left
    over when the loop ends. *)
Fixpoint main_loop (pool : Pool) (minhashes : list Minhash) (working_directory : string)
    (checkpoint_offset next_offset batch_size : Z)
    (offset : Z) (pairs : list Pair) (batch : list pyobj) : M (list pyobj) :=
  match pairs with
  | [] => mret batch
  | pr :: rest =>
      if offset <? checkpoint_offset then
        main_loop pool minhashes working_directory checkpoint_offset next_offset
          batch_size (offset + 1) rest batch
      else if negb (offset <? next_offset) then mret batch
      else
        let '(index1, index2) := pr in
        m1 ← getitem minhashes index1;
        m2 ← getitem minhashes index2;
        batch ← list_append batch [OPair pr; OHash m1; OHash m2];
        batch ← (if Z.of_nat (length batch) =? batch_size
                 then process_batch_3 pool batch working_directory;; mret []
                 else mret batch);
        main_loop pool minhashes working_directory checkpoint_offset next_offset
          batch_size (offset + 1) rest batch
  end.

(** Lines 159-184. *)
Definition main_drive (pool : Pool) (minhashes : list Minhash) (working_directory : string)
    (checkpoint_offset next_offset batch_size : Z) (pairs : list Pair) : M unit :=
  batch ← main_loop pool minhashes working_directory checkpoint_offset next_offset
             batch_size 0 pairs [];
  if negb (Z.of_nat (length batch) =? 0)
  then process_batch_3 pool batch working_directory
  else mret tt.

Definition main (ext : Externals) (working_directory : string)
    (process_count instance_count instance : Z) : M unit :=
  let pairs_file := os_path_join working_directory "all_pairs.pkl" in
  found ← os_path_exists pairs_file;
  if negb found then sys_exit 0
  else
    pairs ← pickle_load pairs_file ≫= as_pairs;
    minhashes ← load_minhashes ext working_directory;
    let pair_count := Z.of_nat (length pairs) in
    (if instance_count =? 0 then raise ZeroDivisionError else mret tt);;
    let offset_start := offset_start pair_count instance_count instance in
    let next_offset := next_offset pair_count instance_count instance in
    main_recover working_directory;;
    checkpoint_offset ← main_load_checkpoint working_directory offset_start;
    let batch_size := 100000 in
    let pool := TqdmMultiProcessPool ext process_count in
    main_drive pool minhashes working_directory checkpoint_offset next_offset
      batch_size pairs.

(** ** Closed forms *)

(** The directory recovery leaves, by the three files it asks about;
    [main_recover_run] below proves that [main_recover] computes it. *)
Definition recovered (wd : string) (fs : gmap string content) : gmap string content :=
  match fs !! transaction_lock wd, fs !! checkpoint_temp_file wd,
        fs !! checkpoint_old_file wd with
  | None, _, _ => fs
  | Some _, None, _ => delete (transaction_lock wd) fs
  | Some _, Some _, None =>
      delete (transaction_lock wd) (delete (checkpoint_temp_file wd) fs)
  | Some _, Some _, Some c =>
      delete (transaction_lock wd)
        (delete (checkpoint_temp_file wd)
           (<[checkpoint_file wd := c]> (delete (checkpoint_old_file wd) fs)))
  end.

(** The calls recovery issues, in order. *)
Definition recovery_calls (wd : string) (fs : gmap string content) : list Op :=
  match fs !! transaction_lock wd, fs !! checkpoint_temp_file wd,
        fs !! checkpoint_old_file wd with
  | None, _, _ => [OpExists (transaction_lock wd)]
  | Some _, None, _ =>
      [OpExists (transaction_lock wd); OpExists (checkpoint_temp_file wd);
       OpRemove (transaction_lock wd)]
  | Some _, Some _, None =>
      [OpExists (transaction_lock wd); OpExists (checkpoint_temp_file wd);
       OpExists (checkpoint_old_file wd); OpRemove (checkpoint_temp_file wd);
       OpRemove (transaction_lock wd)]
  | Some _, Some _, Some _ =>
      [OpExists (transaction_lock wd); OpExists (checkpoint_temp_file wd);
       OpExists (checkpoint_old_file wd);
       OpRename (checkpoint_old_file wd) (checkpoint_file wd);
       OpRemove (checkpoint_temp_file wd); OpRemove (transaction_lock wd)]
  end.

(** A batch as line 177 means to build it holds triples only. *)
Definition is_triple (o : pyobj) : bool :=
  match o with
  | OTriple _ _ _ => true
  | OPair _ | OHash _ => false
  end.

(** The tasks [build_tasks] makes of a batch of triples, and the pairs
    [collect_duplicates] keeps: those whose result is true. *)
Definition tasks_of (batch : list pyobj) : list Task :=
  omap (λ o, match o with
             | OTriple p m1 m2 => Some (p, m1, m2)
             | OPair _ | OHash _ => None
             end) batch.

Definition duplicates_of (batch : list pyobj) (results : list bool) : list Pair :=
  omap (λ '(o, is_duplicate),
          match o with
          | OTriple p _ _ => if is_duplicate : bool then Some p else None
          | OPair _ | OHash _ => None
          end) (zip batch results).

(** ** Sample inputs *)

(** A pool whose comparison calls two fingerprints duplicates when they are
    equal. *)
Definition pool_eq : Pool :=
  {| pool_map := map (λ '(_, m1, m2), bool_decide (m1 = m2)) |}.

Definition ext_small (document_count : Z) : Externals :=
  {| num_docs := document_count;
     pickled_size := λ _, 16;
     TqdmMultiProcessPool := λ _, pool_eq |}.

(** Three documents, the first two alike, and the three candidate pairs. *)
Definition table3 : list Minhash := [[7; 7]; [7; 7]; [7; 9]].
Definition pairs3 : list Pair := [(0, 1); (0, 2); (1, 2)].

Definition batch_01_02 : list pyobj :=
  [OTriple (0, 1) [7; 7] [7; 7]; OTriple (0, 2) [7; 7] [7; 9]].

(** The directory after the batch at offset 0 has been committed. *)
Definition dir_one_commit : gmap string content :=
  {[ "checkpoint.pkl" := Pickled (PInt 2);
     "duplicates_0.pkl" := Pickled (PPairs [(0, 1)]) ]}.

(** After a second batch, at offset 2. *)
Definition dir_two_commits : gmap string content :=
  {[ "checkpoint.pkl" := Pickled (PInt 4);
     "checkpoint_old.pkl" := Pickled (PInt 2);
     "duplicates_0.pkl" := Pickled (PPairs [(0, 1)]);
     "duplicates_2.pkl" := Pickled (PPairs [(0, 1)]) ]}.

(** A third batch, at offset 4, killed after [checkpoint_temp.pkl] was
    written and before the first rename. *)
Definition dir_killed_before_rename : gmap string content :=
  {[ ".transaction_lock" := Empty;
     "checkpoint_temp.pkl" := Pickled (PInt 6);
     "checkpoint.pkl" := Pickled (PInt 4);
     "checkpoint_old.pkl" := Pickled (PInt 2);
     "duplicates_0.pkl" := Pickled (PPairs [(0, 1)]);
     "duplicates_2.pkl" := Pickled (PPairs [(0, 1)]);
     "duplicates_4.pkl" := Pickled (PPairs [(0, 1)]) ]}.


(** A first commit killed after the temporary file was written: no backup. *)
Definition dir_killed_first_commit : gmap string content :=
  {[ ".transaction_lock" := Empty;
     "checkpoint_temp.pkl" := Pickled (PInt 2);
     "duplicates_0.pkl" := Pickled (PPairs [(0, 1)]) ]}.

(** One shard holding the three fingerprints, and the pair file. *)
Definition dir_inputs : gmap string content :=
  {[ "all_pairs.pkl" := Pickled (PPairs pairs3);
     "minhashes_0.pkl" := Pickled (PHashes table3) ]}.

(** The calls that create a file or put content into one. *)
Definition writes (o : Op) : bool :=
  match o with
  | OpTouch _ | OpOpenWrite _ | OpDump _ _ => true
  | OpExists _ | OpOpenRead _ | OpGetsize _ | OpRename _ _ | OpRemove _ => false
  end.

(** A pool that returns one result too many, a true one. *)
Definition pool_surplus : Pool :=
  {| pool_map := λ tasks, map (λ _, false) tasks ++ [true] |}.

(** * Properties *)

(** ** Paths *)

Lemma os_path_join_inj (wd : string) : Inj (=) (=) (os_path_join wd).
Proof.
  intros a b. unfold os_path_join.
  destruct (decide (wd = "")); [done|].
  destruct (ends_with_slash wd); intros H.
  - by apply (inj (String.app wd)) in H.
  - apply (inj (String.app wd)) in H. by apply (inj (String.app "/")) in H.
Qed.

Lemma os_path_join_ne (wd a b : string) :
  a ≠ b → os_path_join wd a ≠ os_path_join wd b.
Proof. intros Hne Heq. by apply Hne, (os_path_join_inj wd). Qed.

Lemma duplicates_name_ne (n : Z) (name : string) :
  (∀ rest, name ≠ String "d" rest) →
  "duplicates_" +:+ pretty n +:+ ".pkl" ≠ name.
Proof.
  intros Hname Heq.
  apply (Hname ("uplicates_" +:+ pretty n +:+ ".pkl")).
  symmetry. exact Heq.
Qed.

(** Two files of the protocol never share a path. *)
Ltac paths :=
  unfold checkpoint_file, checkpoint_temp_file, checkpoint_old_file,
    transaction_lock, duplicates_file;
  first
    [ apply os_path_join_ne; first
        [ discriminate
        | apply duplicates_name_ne; discriminate
        | apply not_eq_sym, duplicates_name_ne; discriminate ]
    | assumption
    | apply not_eq_sym; assumption ].

(** ** Running the primitives *)

Ltac unfold_run :=
  unfold run, boot, boot_kill, mbind, M_bind, mret, M_ret, raise, sys_exit,
    os_path_exists, os_rename, os_remove, touch, pickle_dump, open_wb,
    dump_to, pickle_load, os_path_getsize, syscall in *.

Ltac lookups :=
  repeat first
    [ rewrite lookup_insert_eq
    | rewrite lookup_delete_eq
    | rewrite lookup_insert_ne by paths
    | rewrite lookup_delete_ne by paths
    | match goal with
      | H : ?m !! ?k = _ |- context [?m !! ?k] => rewrite H
      end ].

(** Run as far as the known files decide, then split on the next file. *)
Ltac exec :=
  repeat first
    [ progress simpl
    | progress lookups
    | match goal with
      | |- context [match ?m !! ?k with _ => _ end] => destruct (m !! k) eqn:?
      end ].

(** ** Recovery (lines 140-150) *)

Section Recovery.
Variable wd : string.

Local Abbreviation lock := (transaction_lock wd).
Local Abbreviation ckpt := (checkpoint_file wd).
Local Abbreviation temp := (checkpoint_temp_file wd).
Local Abbreviation old := (checkpoint_old_file wd).

(** Recovery never raises. *)
Lemma main_recover_run (fs : gmap string content) :
  run (main_recover wd) (boot fs)
  = (Ok tt, {| files := recovered wd fs; log := recovery_calls wd fs;
               kill_after := None |}).
Proof.
  unfold main_recover, recovered, recovery_calls. unfold_run.
  destruct (fs !! lock) eqn:Hlock; [|by exec].
  destruct (fs !! temp) eqn:Htemp; [|by exec].
  destruct (fs !! old) eqn:Hold; by exec.
Qed.

Lemma recovered_unlocked (fs : gmap string content) :
  recovered wd fs !! lock = None.
Proof.
  unfold recovered.
  destruct (fs !! lock) eqn:Hlock; [|done].
  destruct (fs !! temp); [destruct (fs !! old)|]; by lookups.
Qed.

(** C3. Idempotent recovery: whatever the working directory holds, a second
    run of the start-up recovery, on the directory the first run left, ends
    normally and leaves that directory as it is; all it does is ask whether
    the lock exists. *)
Theorem recovery_idempotent (fs : gmap string content) :
  ∃ w1 w2,
    run (main_recover wd) (boot fs) = (Ok tt, w1) ∧
    run (main_recover wd) (boot (files w1)) = (Ok tt, w2) ∧
    files w2 = files w1 ∧
    log w2 = [OpExists lock].
Proof.
  eexists _, _. split; [apply main_recover_run|]. simpl.
  split; [apply main_recover_run|]. simpl.
  unfold recovered at 1, recovery_calls at 1.
  by rewrite recovered_unlocked.
Qed.

(** C10. Recovery without a backup: when the lock and [checkpoint_temp]
    exist and [checkpoint_old] does not, recovery removes [checkpoint_temp]
    and the lock, in that order, and nothing else: the checkpoint, when
    there is one, and every other file are as they were. *)
Theorem recovery_frame_without_backup (fs : gmap string content) :
  is_Some (fs !! lock) → is_Some (fs !! temp) → fs !! old = None →
  ∃ w',
    run (main_recover wd) (boot fs) = (Ok tt, w') ∧
    files w' = delete lock (delete temp fs) ∧
    files w' !! temp = None ∧
    files w' !! lock = None ∧
    files w' !! ckpt = fs !! ckpt ∧
    (∀ p, p ≠ temp → p ≠ lock → files w' !! p = fs !! p) ∧
    List.filter modifies (log w') = [OpRemove temp; OpRemove lock].
Proof.
  intros [cl Hlock] [ct Htemp] Hold.
  eexists. split; [apply main_recover_run|]. simpl.
  unfold recovered, recovery_calls. rewrite Hlock, Htemp, Hold.
  repeat split; try by lookups.
  intros p Hp1 Hp2. by lookups.
Qed.


End Recovery.


Lemma recovery_frame_without_backup_witness :
  is_Some (dir_killed_first_commit !! transaction_lock "") ∧
  is_Some (dir_killed_first_commit !! checkpoint_temp_file "") ∧
  dir_killed_first_commit !! checkpoint_old_file "" = None ∧
  ∃ w',
    run (main_recover "") (boot dir_killed_first_commit) = (Ok tt, w') ∧
    List.filter modifies (log w')
    = [OpRemove (checkpoint_temp_file ""); OpRemove (transaction_lock "")].
Proof.
  assert (Hlock : is_Some (dir_killed_first_commit !! transaction_lock ""))
    by (vm_compute; eexists; reflexivity).
  assert (Htemp : is_Some (dir_killed_first_commit !! checkpoint_temp_file ""))
    by (vm_compute; eexists; reflexivity).
  assert (Hold : dir_killed_first_commit !! checkpoint_old_file "" = None)
    by (vm_compute; reflexivity).
  split_and!; try assumption.
  destruct (recovery_frame_without_backup "" dir_killed_first_commit Hlock Htemp Hold)
    as (w' & Hrun & _ & _ & _ & _ & _ & Hlog).
  exists w'. by split.
Defined.

(** The three commits that lead to [dir_killed_before_rename]: two that
    finish, and a third that is killed at its sixth call. *)
Lemma dir_killed_before_rename_reached :
  (∃ w, run (process_batch pool_eq batch_01_02 0 "") (boot ∅) = (Ok tt, w)
        ∧ files w = dir_one_commit) ∧
  (∃ w, run (process_batch pool_eq batch_01_02 2 "") (boot dir_one_commit) = (Ok tt, w)
        ∧ files w = dir_two_commits) ∧
  (∃ w, run (process_batch pool_eq batch_01_02 4 "") (boot_kill 5 dir_two_commits)
        = (Killed, w)
        ∧ files w = dir_killed_before_rename).
Proof. split_and!; eexists; split; vm_compute; reflexivity. Qed.

(** C2, at the point where the code departs from it. Recovery is to lose no
    committed checkpoint and to redo from the last safe one (line 142).
    With the lock, [checkpoint_temp], a [checkpoint_old] left by an earlier
    commit and the committed [checkpoint] all present, which is where a
    third commit killed before its first rename leaves the directory,
    lines 143-146 put the older value 2 over the committed value 4. *)
Lemma recovery_drops_committed_checkpoint :
  is_Some (dir_killed_before_rename !! transaction_lock "") ∧
  dir_killed_before_rename !! checkpoint_file "" = Some (Pickled (PInt 4)) ∧
  ∃ w',
    run (main_recover "") (boot dir_killed_before_rename) = (Ok tt, w') ∧
    files w' !! checkpoint_file "" = Some (Pickled (PInt 2)) ∧
    ¬ (∀ c, dir_killed_before_rename !! checkpoint_file "" = Some c →
            files w' !! checkpoint_file "" = Some c).
Proof.
  split; [vm_compute; eexists; reflexivity|].
  split; [vm_compute; reflexivity|].
  eexists. split; [apply main_recover_run|].
  split; [vm_compute; reflexivity|].
  intros H. specialize (H (Pickled (PInt 4))).
  vm_compute in H. by specialize (H eq_refl).
Qed.

(** ** The commit (process_batch, lines 42-86) *)

Lemma build_tasks_run (batch : list pyobj) (tasks : list Task) (w : World) :
  Forall (λ o, is_triple o = true) batch →
  build_tasks batch tasks w = (Ok (tasks ++ tasks_of batch), w).
Proof.
  intros Hbatch. revert tasks.
  induction Hbatch as [|o rest Ho _ IH]; intros tasks.
  - simpl. by rewrite app_nil_r.
  - destruct o; try discriminate. simpl.
    unfold mbind, M_bind. simpl. rewrite IH.
    by rewrite <- app_assoc.
Qed.

Lemma collect_duplicates_run (batch : list pyobj) (results : list bool) :
  Forall (λ o, is_triple o = true) batch →
  ∀ (i : nat) (duplicates : list Pair) (w : World),
    (i + length results ≤ length batch)%nat →
    collect_duplicates batch i results duplicates w
    = (Ok (duplicates ++ duplicates_of (drop i batch) results), w).
Proof.
  intros Hbatch.
  induction results as [|r rest IH]; intros i duplicates w Hlen.
  - simpl. unfold duplicates_of.
    destruct (drop i batch); simpl; by rewrite app_nil_r.
  - simpl in Hlen.
    destruct (lookup_lt_is_Some_2 batch i) as [o Ho]; [lia|].
    assert (Htriple : is_triple o = true).
    { rewrite Forall_forall in Hbatch. apply Hbatch.
      apply list_elem_of_lookup. eauto. }
    rewrite (drop_S _ _ _ Ho).
    destruct o as [| |p m1 m2]; try discriminate.
    simpl. rewrite Ho. destruct r; simpl.
    + unfold mbind, M_bind. simpl. rewrite IH by lia.
      unfold duplicates_of. simpl. by rewrite <- app_assoc.
    + rewrite IH by lia. done.
Qed.

(** A commit of a batch of triples, with a pool that returns no more
    results than it was given tasks, runs to its end; this is what it
    leaves. *)
Lemma process_batch_run (pool : Pool) (batch : list pyobj) (start_offset : Z)
    (wd : string) (fs : gmap string content) :
  Forall (λ o, is_triple o = true) batch →
  (length (pool_map pool (tasks_of batch)) ≤ length batch)%nat →
  ∃ w',
    run (process_batch pool batch start_offset wd) (boot fs) = (Ok tt, w') ∧
    files w' !! transaction_lock wd = None ∧
    files w' !! checkpoint_temp_file wd = None ∧
    files w' !! checkpoint_file wd
    = Some (Pickled (PInt (start_offset + Z.of_nat (length batch)))) ∧
    files w' !! checkpoint_old_file wd
    = match fs !! checkpoint_file wd with
      | Some c => Some c
      | None => fs !! checkpoint_old_file wd
      end ∧
    files w' !! duplicates_file wd start_offset
    = Some (Pickled (PPairs (duplicates_of batch (pool_map pool (tasks_of batch))))) ∧
    last (log w') = Some (OpRemove (transaction_lock wd)).
Proof.
  intros Hbatch Hlen.
  unfold process_batch. unfold_run.
  rewrite (build_tasks_run batch [] _ Hbatch). simpl.
  destruct (fs !! transaction_lock wd) eqn:Hlock; simpl;
    rewrite (collect_duplicates_run batch _ Hbatch 0%nat) by (simpl; lia);
    simpl; rewrite drop_0;
    destruct (fs !! checkpoint_file wd) eqn:Hckpt;
    exec; eexists; (split; [reflexivity|]); simpl; split_and!; by lookups.
Qed.

(** X8. A commit that starts with no lock, no temporary file and no backup
    may be killed before any of its calls: recovery then leaves in the
    checkpoint slot either what was there before the commit or the value
    the commit was writing. *)
Lemma commit_crash_safe (pool : Pool) (batch : list pyobj) (start_offset : Z)
    (wd : string) (fs : gmap string content) (k : nat) :
  Forall (λ o, is_triple o = true) batch →
  (length (pool_map pool (tasks_of batch)) ≤ length batch)%nat →
  fs !! transaction_lock wd = None →
  fs !! checkpoint_temp_file wd = None →
  fs !! checkpoint_old_file wd = None →
  ∃ w',
    run (main_recover wd)
      (boot (files (run (process_batch pool batch start_offset wd) (boot_kill k fs)).2))
    = (Ok tt, w') ∧
    (files w' !! checkpoint_file wd = fs !! checkpoint_file wd ∨
     files w' !! checkpoint_file wd
     = Some (Pickled (PInt (start_offset + Z.of_nat (length batch))))).
Proof.
  intros Hbatch Hlen Hlock Htemp Hold.
  eexists. split; [apply main_recover_run|].
  simpl. unfold process_batch, recovered. unfold_run.
  rewrite (build_tasks_run batch [] _ Hbatch). simpl.
  destruct k as [|k]; simpl; [rewrite Hlock; by left|].
  rewrite Hlock. simpl.
  rewrite (collect_duplicates_run batch _ Hbatch 0%nat) by (simpl; lia). simpl.
  destruct (fs !! checkpoint_file wd) as [c|] eqn:Hckpt.
  - do 8 (destruct k as [|k]; [exec; auto|]). exec; auto.
  - do 8 (destruct k as [|k]; [exec; auto|]). exec; auto.
Qed.

(** C9, as stated, fails. A commit into a directory that holds a checkpoint
    ends normally, the lock is gone, and [checkpoint_old] is there. *)
Lemma checkpoint_old_outlives_commit :
  ∃ w',
    run (process_batch pool_eq batch_01_02 2 "") (boot dir_one_commit) = (Ok tt, w') ∧
    files w' !! transaction_lock "" = None ∧
    files w' !! checkpoint_old_file "" = Some (Pickled (PInt 2)) ∧
    files w' !! checkpoint_old_file "" ≠ None.
Proof. eexists. split_and!; by vm_compute. Qed.

(** C9, as the code has it. The commit never removes [checkpoint_old]: once
    it has ended and the lock is gone, [checkpoint_old] holds the checkpoint
    the commit found, and when it found none [checkpoint_old] is as it was
    before. *)
Theorem commit_leaves_checkpoint_old (pool : Pool) (batch : list pyobj)
    (start_offset : Z) (wd : string) (fs : gmap string content) :
  Forall (λ o, is_triple o = true) batch →
  (length (pool_map pool (tasks_of batch)) ≤ length batch)%nat →
  ∃ w',
    run (process_batch pool batch start_offset wd) (boot fs) = (Ok tt, w') ∧
    files w' !! transaction_lock wd = None ∧
    (∀ c, fs !! checkpoint_file wd = Some c →
          files w' !! checkpoint_old_file wd = Some c) ∧
    (fs !! checkpoint_file wd = None →
     files w' !! checkpoint_old_file wd = fs !! checkpoint_old_file wd).
Proof.
  intros Hbatch Hlen.
  destruct (process_batch_run pool batch start_offset wd fs Hbatch Hlen)
    as (w' & Hrun & Hlock & _ & _ & Hold & _).
  exists w'. split_and!; [done|done|..].
  - intros c Hc. by rewrite Hold, Hc.
  - intros Hc. by rewrite Hold, Hc.
Qed.

Lemma commit_leaves_checkpoint_old_witness :
  Forall (λ o, is_triple o = true) batch_01_02 ∧
  (length (pool_map pool_eq (tasks_of batch_01_02)) ≤ length batch_01_02)%nat ∧
  ∃ w',
    run (process_batch pool_eq batch_01_02 2 "") (boot dir_one_commit) = (Ok tt, w') ∧
    files w' !! checkpoint_old_file "" = Some (Pickled (PInt 2)).
Proof.
  assert (Hbatch : Forall (λ o, is_triple o = true) batch_01_02)
    by (repeat constructor).
  assert (Hlen : (length (pool_map pool_eq (tasks_of batch_01_02))
                  ≤ length batch_01_02)%nat) by (vm_compute; lia).
  split_and!; [done|done|].
  destruct (commit_leaves_checkpoint_old pool_eq batch_01_02 2 "" dir_one_commit
              Hbatch Hlen) as (w' & Hrun & _ & Hold & _).
  exists w'. split; [done|]. apply Hold. by vm_compute.
Defined.

(** ** Resuming (lines 152-157) *)

Lemma run_bind {A B} (m : M A) (f : A → M B) (w : World) :
  run (m ≫= f) w
  = match run m w with
    | (Ok a, w') => run (f a) w'
    | (Raise e, w') => (Raise e, w')
    | (Killed, w') => (Killed, w')
    end.
Proof. reflexivity. Qed.

Lemma main_load_checkpoint_run (wd : string) (offset_start : Z)
    (fs : gmap string content) (calls : list Op) :
  ∃ w',
    run (main_load_checkpoint wd offset_start)
      {| files := fs; log := calls; kill_after := None |}
    = (match fs !! checkpoint_file wd with
       | None => Ok offset_start
       | Some Empty => Raise EOFError
       | Some (Pickled (PInt n)) => Ok (n + 1)
       | Some (Pickled _) => Raise TypeError
       end, w')
    ∧ files w' = fs.
Proof.
  unfold main_load_checkpoint. unfold_run.
  destruct (fs !! checkpoint_file wd) as [[|[n|l|l]]|] eqn:Hckpt;
    exec; by eexists.
Qed.

(** C4. Where [main] resumes: after recovery has run, a checkpoint file
    holding the integer [n] gives the resume offset [n + 1], and no
    checkpoint file gives the start of this instance's range,
    [pairs_per_instance * instance]. Reading the checkpoint changes no
    file. *)
Theorem checkpoint_load_semantics (wd : string)
    (pair_count instance_count instance : Z) (fs : gmap string content) :
  ∃ w1,
    run (main_recover wd) (boot fs) = (Ok tt, w1) ∧
    (∀ n, files w1 !! checkpoint_file wd = Some (Pickled (PInt n)) →
       ∃ w2,
         run (main_load_checkpoint wd (offset_start pair_count instance_count instance)) w1
         = (Ok (n + 1), w2) ∧ files w2 = files w1) ∧
    (files w1 !! checkpoint_file wd = None →
       ∃ w2,
         run (main_load_checkpoint wd (offset_start pair_count instance_count instance)) w1
         = (Ok (pairs_per_instance pair_count instance_count * instance), w2)
         ∧ files w2 = files w1).
Proof.
  eexists. split; [apply main_recover_run|]. simpl.
  split.
  - intros n Hn.
    destruct (main_load_checkpoint_run wd
                (offset_start pair_count instance_count instance)
                (recovered wd fs) (recovery_calls wd fs)) as (w2 & Hrun & Hfiles).
    rewrite Hn in Hrun. by exists w2.
  - intros Hnone.
    destruct (main_load_checkpoint_run wd
                (offset_start pair_count instance_count instance)
                (recovered wd fs) (recovery_calls wd fs)) as (w2 & Hrun & Hfiles).
    rewrite Hnone in Hrun. by exists w2.
Qed.

Lemma checkpoint_load_semantics_witness :
  (∃ w, run (main_startup "" (offset_start 3 1 0)) (boot dir_one_commit) = (Ok 3, w)) ∧
  (∃ w, run (main_startup "" (offset_start 7 2 1)) (boot dir_inputs) = (Ok 3, w)).
Proof.
  split.
  - destruct (checkpoint_load_semantics "" 3 1 0 dir_one_commit)
      as (w1 & Hrec & Hsome & _).
    destruct (Hsome 2) as (w2 & Hload & _).
    { rewrite main_recover_run in Hrec. injection Hrec as <-. by vm_compute. }
    exists w2. unfold main_startup. rewrite run_bind, Hrec. exact Hload.
  - destruct (checkpoint_load_semantics "" 7 2 1 dir_inputs)
      as (w1 & Hrec & _ & Hnone).
    destruct Hnone as (w2 & Hload & _).
    { rewrite main_recover_run in Hrec. injection Hrec as <-. by vm_compute. }
    exists w2. unfold main_startup. rewrite run_bind, Hrec. exact Hload.
Defined.

Lemma recovered_without_lock (wd : string) (fs : gmap string content) :
  fs !! transaction_lock wd = None → recovered wd fs = fs.
Proof. intros Hlock. unfold recovered. by rewrite Hlock. Qed.

(** C1, at the point where the code departs from it. A commit stores
    [start_offset + len(batch)], the offset of the first pair it has not
    processed; the next start of [main] reads that value back and resumes
    one further, at [start_offset + len(batch) + 1]. *)
Theorem resume_offset_skips_one_pair (pool : Pool) (batch : list pyobj)
    (start_offset : Z) (wd : string) (fs : gmap string content) (range_start : Z) :
  Forall (λ o, is_triple o = true) batch →
  (length (pool_map pool (tasks_of batch)) ≤ length batch)%nat →
  ∃ w1 w2,
    run (process_batch pool batch start_offset wd) (boot fs) = (Ok tt, w1) ∧
    files w1 !! checkpoint_file wd
    = Some (Pickled (PInt (start_offset + Z.of_nat (length batch)))) ∧
    run (main_startup wd range_start) (boot (files w1))
    = (Ok (start_offset + Z.of_nat (length batch) + 1), w2).
Proof.
  intros Hbatch Hlen.
  destruct (process_batch_run pool batch start_offset wd fs Hbatch Hlen)
    as (w1 & Hrun & Hlock & _ & Hckpt & _).
  destruct (main_load_checkpoint_run wd range_start (files w1)
              (recovery_calls wd (files w1))) as (w2 & Hload & _).
  rewrite Hckpt in Hload.
  exists w1, w2. split_and!; [done|done|].
  unfold main_startup. rewrite run_bind, main_recover_run.
  by rewrite (recovered_without_lock wd (files w1) Hlock).
Qed.

(** Three pairs, the first two committed as one batch: the run that resumes
    starts at offset 3. *)
Lemma resume_offset_skips_one_pair_witness :
  Forall (λ o, is_triple o = true) batch_01_02 ∧
  (length (pool_map pool_eq (tasks_of batch_01_02)) ≤ length batch_01_02)%nat ∧
  ∃ w1 w2,
    run (process_batch pool_eq batch_01_02 0 "") (boot ∅) = (Ok tt, w1) ∧
    files w1 !! checkpoint_file "" = Some (Pickled (PInt 2)) ∧
    run (main_startup "" 0) (boot (files w1)) = (Ok 3, w2).
Proof.
  assert (Hbatch : Forall (λ o, is_triple o = true) batch_01_02)
    by (repeat constructor).
  assert (Hlen : (length (pool_map pool_eq (tasks_of batch_01_02))
                  ≤ length batch_01_02)%nat) by (vm_compute; lia).
  split_and!; [done|done|].
  exact (resume_offset_skips_one_pair pool_eq batch_01_02 0 "" ∅ 0 Hbatch Hlen).
Defined.

(** From offset 3 the loop passes over all three pairs: the pair at offset
    2, which no batch has processed, is never compared. *)
Lemma resumed_loop_passes_third_pair (w : World) :
  run (main_drive pool_eq table3 "" 3 3 2 pairs3) w = (Ok tt, w).
Proof. reflexivity. Qed.

(** ** The partition (lines 124-127, 165 and 173) *)

(** C5, as stated, fails. Three pairs over two instances: the ranges are
    [0, 1) and [1, 2), and the pair at offset 2 is in neither. *)
Lemma partition_leaves_remainder :
  0 ≤ 2 < 3 ∧
  ¬ ∃ instance, 0 ≤ instance < 2 ∧
      offset_start 3 2 instance ≤ 2 < next_offset 3 2 instance.
Proof.
  split; [lia|]. intros (i & Hi & Hr).
  unfold next_offset, offset_start, pairs_per_instance in Hr.
  change (3 ÷ 2) with 1 in Hr. lia.
Qed.

(** C5, as the code has it. The ranges of instances 0 .. instance_count-1
    all have the floor-division size, each ends where the next begins, no
    offset is in two of them, and together they are exactly
    [0, pairs_per_instance * instance_count): that is [0, pair_count) less
    its last [pair_count mod instance_count] offsets, which belong to no
    instance; the union is all of [0, pair_count) exactly when
    [instance_count] divides [pair_count]. *)
Theorem partition_ranges (pair_count instance_count : Z) :
  0 ≤ pair_count → 1 ≤ instance_count →
  pairs_per_instance pair_count instance_count = pair_count `div` instance_count ∧
  offset_start pair_count instance_count 0 = 0 ∧
  (∀ i, next_offset pair_count instance_count i
        - offset_start pair_count instance_count i
        = pairs_per_instance pair_count instance_count) ∧
  (∀ i, next_offset pair_count instance_count i
        = offset_start pair_count instance_count (i + 1)) ∧
  (∀ i j k,
     offset_start pair_count instance_count i ≤ k < next_offset pair_count instance_count i →
     offset_start pair_count instance_count j ≤ k < next_offset pair_count instance_count j →
     i = j) ∧
  (∀ k,
     (∃ i, 0 ≤ i < instance_count ∧
           offset_start pair_count instance_count i ≤ k
           < next_offset pair_count instance_count i)
     ↔ 0 ≤ k < pairs_per_instance pair_count instance_count * instance_count) ∧
  pairs_per_instance pair_count instance_count * instance_count
  = pair_count - pair_count `mod` instance_count ∧
  0 ≤ pair_count `mod` instance_count < instance_count ∧
  (pairs_per_instance pair_count instance_count * instance_count = pair_count
   ↔ (instance_count | pair_count)).
Proof.
  intros Hn Hc.
  assert (Hq : pairs_per_instance pair_count instance_count
               = pair_count `div` instance_count).
  { unfold pairs_per_instance. apply Z.quot_div_nonneg; lia. }
  unfold next_offset, offset_start. rewrite Hq.
  set (q := pair_count `div` instance_count).
  assert (Hq0 : 0 ≤ q) by (apply Z.div_pos; lia).
  pose proof (Z.div_mod pair_count instance_count ltac:(lia)) as Hdm.
  pose proof (Z.mod_pos_bound pair_count instance_count ltac:(lia)) as Hm.
  fold q in Hdm.
  split_and!; try lia.
  - intros i j k Hi Hj. nia.
  - intros k. split.
    + intros (i & Hi & Hk). nia.
    + intros Hk. assert (0 < q) by nia.
      exists (k `div` q).
      pose proof (Z.div_mod k q ltac:(lia)).
      pose proof (Z.mod_pos_bound k q ltac:(lia)).
      assert (0 ≤ k `div` q) by (apply Z.div_pos; lia).
      assert (k `div` q < instance_count) by (apply Z.div_lt_upper_bound; nia).
      nia.
  - split.
    + intros Heq. exists q. lia.
    + intros [z Hz]. assert (pair_count `mod` instance_count = 0).
      { rewrite Hz. apply Z.mod_mul. lia. }
      lia.
Qed.

Lemma partition_ranges_witness :
  0 ≤ 7 ∧ 1 ≤ 3 ∧
  pairs_per_instance 7 3 = 2 ∧
  (∀ k, (∃ i, 0 ≤ i < 3 ∧ offset_start 7 3 i ≤ k < next_offset 7 3 i) ↔ 0 ≤ k < 6).
Proof.
  assert (H7 : 0 ≤ 7) by lia. assert (H3 : 1 ≤ 3) by lia.
  destruct (partition_ranges 7 3 H7 H3) as (Hq & _ & _ & _ & _ & Hunion & _).
  split_and!; [lia|lia|reflexivity|exact Hunion].
Defined.

(** ** Loading the fingerprints (load_minhashes, lines 88-107) *)

(** The offsets of [shard_offsets] are the multiples of 1000 below the
    document count, which are the values [offset] takes in the [while] loop. *)
Lemma shard_offsets_spec (document_count offset : Z) :
  offset ∈ shard_offsets document_count
  ↔ ∃ k, 0 ≤ k ∧ offset = 1000 * k ∧ offset < document_count.
Proof.
  unfold shard_offsets. rewrite list_elem_of_fmap.
  set (n := (document_count + 999) `div` 1000).
  assert (Hn : 1000 * n ≤ document_count + 999 < 1000 * n + 1000).
  { pose proof (Z.div_mod (document_count + 999) 1000 ltac:(lia)).
    pose proof (Z.mod_pos_bound (document_count + 999) 1000 ltac:(lia)).
    subst n. lia. }
  clearbody n. split.
  - intros (i & -> & Hi). apply elem_of_seq in Hi.
    exists (Z.of_nat i). lia.
  - intros (k & Hk & -> & Hlt). exists (Z.to_nat k).
    split; [lia|]. apply elem_of_seq. lia.
Qed.

Lemma scan_shards_run (ext : Externals) (wd : string) (offsets : list Z)
    (fs : gmap string content) :
  (∀ offset, offset ∈ offsets → is_Some (fs !! minhashes_file wd offset)) →
  ∀ (minhashes_files : list string) (total : Z) (calls : list Op),
  ∃ total',
    scan_shards ext wd offsets minhashes_files total
      {| files := fs; log := calls; kill_after := None |}
    = (Ok (minhashes_files, total'),
       {| files := fs;
          log := calls ++ ((λ offset, OpGetsize (minhashes_file wd offset)) <$> offsets);
          kill_after := None |}).
Proof.
  induction offsets as [|offset rest IH]; intros Hall minhashes_files total calls.
  - eexists. simpl. by rewrite app_nil_r.
  - destruct (Hall offset) as [c Hc]; [by left|].
    simpl. unfold_run. simpl. rewrite Hc. simpl.
    destruct (IH (λ o Ho, Hall o (list_elem_of_further _ _ _ Ho)) minhashes_files
                (total + pickled_size ext c)
                (calls ++ [OpGetsize (minhashes_file wd offset)])) as [total' Hrun].
    exists total'. rewrite Hrun. by rewrite <- app_assoc.
Qed.

(** C6, at the point where the code departs from it. With every shard file
    in place, [load_minhashes] asks for the size of each, opens none of
    them, and returns the empty table, however many documents there are. *)
Theorem load_minhashes_returns_empty_table (ext : Externals) (wd : string)
    (fs : gmap string content) :
  (∀ offset, offset ∈ shard_offsets (num_docs ext) →
             is_Some (fs !! minhashes_file wd offset)) →
  ∃ w',
    run (load_minhashes ext wd) (boot fs) = (Ok [], w') ∧
    files w' = fs ∧
    log w' = (λ offset, OpGetsize (minhashes_file wd offset))
               <$> shard_offsets (num_docs ext).
Proof.
  intros Hall. unfold load_minhashes, run, boot.
  destruct (scan_shards_run ext wd _ fs Hall [] 0 []) as (total' & Hscan).
  unfold mbind, M_bind. rewrite Hscan. simpl.
  by eexists.
Qed.

(** Three documents in one shard: the table that comes back is empty. *)
Lemma load_minhashes_returns_empty_table_witness :
  (∀ offset, offset ∈ shard_offsets (num_docs (ext_small 3)) →
             is_Some (dir_inputs !! minhashes_file "" offset)) ∧
  dir_inputs !! minhashes_file "" 0 = Some (Pickled (PHashes table3)) ∧
  ∃ w', run (load_minhashes (ext_small 3) "") (boot dir_inputs) = (Ok [], w').
Proof.
  assert (Hall : ∀ offset, offset ∈ shard_offsets (num_docs (ext_small 3)) →
                           is_Some (dir_inputs !! minhashes_file "" offset)).
  { intros offset Ho. change (shard_offsets (num_docs (ext_small 3))) with [0] in Ho.
    apply list_elem_of_singleton in Ho as ->. vm_compute. eexists; reflexivity. }
  split_and!; [exact Hall|by vm_compute|].
  destruct (load_minhashes_returns_empty_table (ext_small 3) "" dir_inputs Hall)
    as (w' & Hrun & _).
  by exists w'.
Defined.

(** ** The driver loop (lines 159-184) *)

Lemma getitem_run {A} (l : list A) (i : Z) (w : World) :
  (∃ x, getitem l i w = (Ok x, w)) ∨ getitem l i w = (Raise IndexError, w).
Proof.
  unfold getitem.
  destruct (_ && _); [|by right].
  destruct (l !! _); [left; by eexists|by right].
Qed.

Lemma main_loop_raises (pool : Pool) (minhashes : list Minhash) (wd : string)
    (checkpoint_offset next_offset batch_size : Z) (pairs : list Pair) :
  ∀ (offset : Z) (batch : list pyobj) (w : World),
    offset ≤ checkpoint_offset < offset + Z.of_nat (length pairs) →
    checkpoint_offset < next_offset →
    ∃ e,
      main_loop pool minhashes wd checkpoint_offset next_offset batch_size
        offset pairs batch w = (Raise e, w)
      ∧ (e = IndexError ∨ e = TypeError).
Proof.
  induction pairs as [|[index1 index2] rest IH]; intros offset batch w Hrange Hnext.
  - simpl in Hrange. lia.
  - simpl. destruct (offset <? checkpoint_offset) eqn:Hskip.
    + apply IH; [|done]. apply Z.ltb_lt in Hskip.
      simpl length in Hrange. lia.
    + apply Z.ltb_ge in Hskip.
      assert (Hin : (offset <? next_offset) = true) by (apply Z.ltb_lt; lia).
      rewrite Hin. simpl. unfold mbind, M_bind.
      destruct (getitem_run minhashes index1 w) as [[m1 ->]| ->];
        [|exists IndexError; split; [done|by left]].
      destruct (getitem_run minhashes index2 w) as [[m2 ->]| ->];
        [|exists IndexError; split; [done|by left]].
      exists TypeError. split; [done|by right].
Qed.

(** C7, at the point where the code departs from it. As soon as the pair
    list reaches an offset of the owned range that is not behind the
    checkpoint, the loop raises: IndexError when a fingerprint is missing
    from the table, TypeError from [batch.append] with three arguments
    otherwise. No call has been issued by then, so no batch was handed to
    [process_batch]. *)
Theorem driver_loop_raises_in_owned_range (pool : Pool) (minhashes : list Minhash)
    (wd : string) (checkpoint_offset next_offset batch_size : Z)
    (pairs : list Pair) (w : World) :
  0 ≤ checkpoint_offset < Z.of_nat (length pairs) →
  checkpoint_offset < next_offset →
  ∃ e,
    run (main_drive pool minhashes wd checkpoint_offset next_offset batch_size pairs) w
    = (Raise e, w)
    ∧ (e = IndexError ∨ e = TypeError).
Proof.
  intros Hrange Hnext.
  destruct (main_loop_raises pool minhashes wd checkpoint_offset next_offset
              batch_size pairs 0 [] w) as (e & Hrun & He); [lia|lia|].
  exists e. split; [|done].
  unfold main_drive, run, mbind, M_bind. by rewrite Hrun.
Qed.

(** Three pairs, their three fingerprints, batch size 2, a fresh directory:
    the first pair already raises TypeError. *)
Lemma driver_loop_raises_in_owned_range_witness :
  0 ≤ 0 < Z.of_nat (length pairs3) ∧ 0 < 3 ∧
  run (main_drive pool_eq table3 "" 0 3 2 pairs3) (boot ∅) = (Raise TypeError, boot ∅).
Proof.
  assert (Hrange : 0 ≤ 0 < Z.of_nat (length pairs3)) by (simpl; lia).
  assert (Hnext : 0 < 3) by lia.
  split_and!; [lia|lia|lia|].
  destruct (driver_loop_raises_in_owned_range pool_eq table3 "" 0 3 2 pairs3 (boot ∅)
              Hrange Hnext) as (e & Hrun & _).
  assert (He : (Raise TypeError : outcome unit, boot ∅) = (Raise e, boot ∅))
    by exact Hrun.
  injection He as <-. exact Hrun.
Defined.

(** The whole of [main] on these inputs: the table it loaded is empty, so
    the first pair raises IndexError, after recovery and the checkpoint
    lookup and before anything is written. *)
Lemma main_raises_on_first_pair :
  run (main (ext_small 3) "" 4 1 0) (boot dir_inputs)
  = (Raise IndexError,
     {| files := dir_inputs;
        log := [OpExists "all_pairs.pkl"; OpOpenRead "all_pairs.pkl";
                OpGetsize "minhashes_0.pkl"; OpExists ".transaction_lock";
                OpExists "checkpoint.pkl"];
        kill_after := None |}).
Proof. vm_compute. reflexivity. Qed.

(** ** A missing pair file (lines 112-115) *)

(** C8, as stated, fails. With no pair file the exit status is 0. *)
Lemma missing_pairs_file_status_is_zero :
  (∅ : gmap string content) !! os_path_join "" "all_pairs.pkl" = None ∧
  ¬ ∃ n, exit_status (run (main (ext_small 3) "" 4 1 0) (boot ∅)).1 = Some n ∧ n ≠ 0.
Proof.
  split; [done|]. intros (n & Hn & Hne).
  vm_compute in Hn. injection Hn as <-. done.
Qed.

(** C8, as the code has it. With no pair file, [main] ends at once through
    [sys.exit(0)]: exit status 0, the only call issued is the question
    whether the pair file exists, and the directory is as it was. *)
Theorem missing_pairs_file_exits_early (ext : Externals) (wd : string)
    (process_count instance_count instance : Z) (fs : gmap string content) :
  fs !! os_path_join wd "all_pairs.pkl" = None →
  run (main ext wd process_count instance_count instance) (boot fs)
  = (Raise (SystemExit 0),
     {| files := fs; log := [OpExists (os_path_join wd "all_pairs.pkl")];
        kill_after := None |})
  ∧ exit_status (run (main ext wd process_count instance_count instance) (boot fs)).1
    = Some 0.
Proof.
  intros Hnone.
  assert (Hrun : run (main ext wd process_count instance_count instance) (boot fs)
                 = (Raise (SystemExit 0),
                    {| files := fs; log := [OpExists (os_path_join wd "all_pairs.pkl")];
                       kill_after := None |})).
  { unfold main. unfold_run. simpl. by rewrite Hnone. }
  split; [exact Hrun|]. by rewrite Hrun.
Qed.

Lemma missing_pairs_file_exits_early_witness :
  (∅ : gmap string content) !! os_path_join "" "all_pairs.pkl" = None ∧
  exit_status (run (main (ext_small 3) "" 4 1 0) (boot ∅)).1 = Some 0.
Proof.
  assert (Hnone : (∅ : gmap string content) !! os_path_join "" "all_pairs.pkl" = None)
    by done.
  split; [exact Hnone|].
  exact (proj2 (missing_pairs_file_exits_early (ext_small 3) "" 4 1 0 ∅ Hnone)).
Defined.

(** * Further properties of the code *)

(** ** File names *)

Lemma list_ascii_of_string_app (s1 s2 : string) :
  list_ascii_of_string (s1 +:+ s2)
  = (list_ascii_of_string s1 ++ list_ascii_of_string s2)%list.
Proof.
  induction s1 as [|c s1 IH]; [done|].
  change (String c s1 +:+ s2) with (String c (s1 +:+ s2)).
  simpl. by rewrite IH.
Qed.

Lemma string_app_inv_tail (s1 s2 t : string) :
  s1 +:+ t = s2 +:+ t → s1 = s2.
Proof.
  intros H. apply (f_equal list_ascii_of_string) in H.
  rewrite !list_ascii_of_string_app in H.
  apply app_inv_tail in H.
  apply (f_equal string_of_list_ascii) in H.
  by rewrite !string_of_list_ascii_of_string in H.
Qed.

(** X1. Batches that start at different offsets write different duplicate
    files, and shards at different offsets are different files: the file
    name determines the offset. *)
Theorem offset_files_inj (wd : string) (a b : Z) :
  (duplicates_file wd a = duplicates_file wd b → a = b) ∧
  (minhashes_file wd a = minhashes_file wd b → a = b).
Proof.
  unfold duplicates_file, minhashes_file. split; intros H.
  - apply (os_path_join_inj wd) in H.
    apply (inj (String.app "duplicates_")) in H.
    apply string_app_inv_tail in H. by apply (inj pretty) in H.
  - apply (os_path_join_inj wd) in H.
    apply (inj (String.app "minhashes_")) in H.
    apply string_app_inv_tail in H. by apply (inj pretty) in H.
Qed.

(** X2. For any working directory the four checkpoint files, the pair
    file, the duplicate files and the shard files are all different paths:
    writing one never overwrites another. *)
Theorem protocol_paths_distinct (wd : string) (a b : Z) :
  NoDup [checkpoint_file wd; checkpoint_temp_file wd; checkpoint_old_file wd;
         transaction_lock wd; os_path_join wd "all_pairs.pkl";
         duplicates_file wd a; minhashes_file wd b].
Proof.
  unfold checkpoint_file, checkpoint_temp_file, checkpoint_old_file,
    transaction_lock, duplicates_file, minhashes_file.
  change [os_path_join wd "checkpoint.pkl"; os_path_join wd "checkpoint_temp.pkl";
          os_path_join wd "checkpoint_old.pkl"; os_path_join wd ".transaction_lock";
          os_path_join wd "all_pairs.pkl";
          os_path_join wd ("duplicates_" +:+ pretty a +:+ ".pkl");
          os_path_join wd ("minhashes_" +:+ pretty b +:+ ".pkl")]
    with (os_path_join wd <$>
            ["checkpoint.pkl"; "checkpoint_temp.pkl"; "checkpoint_old.pkl";
             ".transaction_lock"; "all_pairs.pkl";
             "duplicates_" +:+ pretty a +:+ ".pkl";
             "minhashes_" +:+ pretty b +:+ ".pkl"]).
  apply NoDup_fmap_2; [apply os_path_join_inj|].
  change ("duplicates_" +:+ pretty a +:+ ".pkl")
    with (String "d" ("uplicates_" +:+ pretty a +:+ ".pkl")).
  change ("minhashes_" +:+ pretty b +:+ ".pkl")
    with (String "m" ("inhashes_" +:+ pretty b +:+ ".pkl")).
  repeat (apply NoDup_cons_2;
          [rewrite ?not_elem_of_cons; split_and?;
           try discriminate; apply not_elem_of_nil|]).
  apply NoDup_nil_2.
Qed.

(** ** Recovery, on any directory *)

(** X3. Whatever the directory holds, recovery ends normally and leaves no
    lock; when it found the lock it leaves no temporary file either, and
    when it found no lock it changes nothing, even if a temporary file or a
    backup is lying there. *)
Theorem recovery_always_unlocks (wd : string) (fs : gmap string content) :
  ∃ w',
    run (main_recover wd) (boot fs) = (Ok tt, w') ∧
    files w' !! transaction_lock wd = None ∧
    (is_Some (fs !! transaction_lock wd) →
     files w' !! checkpoint_temp_file wd = None) ∧
    (fs !! transaction_lock wd = None → files w' = fs).
Proof.
  eexists. split; [apply main_recover_run|]. simpl. unfold recovered.
  destruct (fs !! transaction_lock wd) eqn:Hlock.
  - destruct (fs !! checkpoint_temp_file wd) eqn:Htemp;
      [destruct (fs !! checkpoint_old_file wd) eqn:Hold|];
      split_and!; try done; try (by lookups); intros _; by lookups.
  - split_and!; try done; by intros [? ?].
Qed.

(** X4. Recovery changes nothing but the lock and the three checkpoint
    files: every other path, a duplicate file or an input file for
    instance, holds afterwards what it held before. *)
Theorem recovery_touches_checkpoint_files_only (wd : string)
    (fs : gmap string content) (p : string) :
  p ≠ transaction_lock wd → p ≠ checkpoint_temp_file wd →
  p ≠ checkpoint_old_file wd → p ≠ checkpoint_file wd →
  ∃ w',
    run (main_recover wd) (boot fs) = (Ok tt, w') ∧
    files w' !! p = fs !! p.
Proof.
  intros Hlock Htemp Hold Hckpt.
  eexists. split; [apply main_recover_run|]. simpl. unfold recovered.
  destruct (fs !! transaction_lock wd); [|done].
  destruct (fs !! checkpoint_temp_file wd);
    [destruct (fs !! checkpoint_old_file wd)|]; by lookups.
Qed.

Lemma recovery_touches_checkpoint_files_only_witness :
  "duplicates_4.pkl" ≠ transaction_lock "" ∧
  "duplicates_4.pkl" ≠ checkpoint_temp_file "" ∧
  "duplicates_4.pkl" ≠ checkpoint_old_file "" ∧
  "duplicates_4.pkl" ≠ checkpoint_file "" ∧
  ∃ w',
    run (main_recover "") (boot dir_killed_before_rename) = (Ok tt, w') ∧
    files w' !! "duplicates_4.pkl" = Some (Pickled (PPairs [(0, 1)])).
Proof.
  assert (H1 : "duplicates_4.pkl" ≠ transaction_lock "") by (vm_compute; discriminate).
  assert (H2 : "duplicates_4.pkl" ≠ checkpoint_temp_file "") by (vm_compute; discriminate).
  assert (H3 : "duplicates_4.pkl" ≠ checkpoint_old_file "") by (vm_compute; discriminate).
  assert (H4 : "duplicates_4.pkl" ≠ checkpoint_file "") by (vm_compute; discriminate).
  split_and!; try assumption.
  destruct (recovery_touches_checkpoint_files_only "" dir_killed_before_rename
              "duplicates_4.pkl" H1 H2 H3 H4) as (w' & Hrun & Hp).
  exists w'. split; [exact Hrun|]. rewrite Hp. by vm_compute.
Defined.

(** ** The commit, further *)

Lemma elem_of_duplicates_of (batch : list pyobj) (results : list bool) (p : Pair) :
  p ∈ duplicates_of batch results
  ↔ ∃ (i : nat) m1 m2,
      batch !! i = Some (OTriple p m1 m2) ∧ results !! i = Some true.
Proof.
  unfold duplicates_of. rewrite list_elem_of_omap. split.
  - intros ([o r] & Hin & Hsome).
    apply elem_of_lookup_zip_with in Hin as (i & o' & r' & [= <- <-] & Ho & Hr).
    destruct o as [| |q m1 m2]; try discriminate.
    destruct r; [|discriminate]. injection Hsome as ->.
    by exists i, m1, m2.
  - intros (i & m1 & m2 & Ho & Hr).
    exists (OTriple p m1 m2, true). split; [|done].
    apply elem_of_lookup_zip_with. by exists i, (OTriple p m1 m2), true.
Qed.

Lemma length_omap_le {A B} (f : A → option B) (l : list A) :
  (length (omap f l) ≤ length l)%nat.
Proof.
  induction l as [|x l IH]; csimpl; [lia|].
  destruct (f x); csimpl; lia.
Qed.

(** X5. What a commit records: when [process_batch] has ended, the file
    [duplicates_<start_offset>] holds a list of pairs, and a pair is in it
    exactly when it stands in the batch at a position whose result from the
    pool is true; the list is never longer than the batch. *)
Theorem commit_records_flagged_pairs (pool : Pool) (batch : list pyobj)
    (start_offset : Z) (wd : string) (fs : gmap string content) :
  Forall (λ o, is_triple o = true) batch →
  (length (pool_map pool (tasks_of batch)) ≤ length batch)%nat →
  ∃ w' duplicates,
    run (process_batch pool batch start_offset wd) (boot fs) = (Ok tt, w') ∧
    files w' !! duplicates_file wd start_offset = Some (Pickled (PPairs duplicates)) ∧
    (∀ p, p ∈ duplicates
          ↔ ∃ (i : nat) m1 m2,
              batch !! i = Some (OTriple p m1 m2) ∧
              pool_map pool (tasks_of batch) !! i = Some true) ∧
    (length duplicates ≤ length batch)%nat.
Proof.
  intros Hbatch Hlen.
  destruct (process_batch_run pool batch start_offset wd fs Hbatch Hlen)
    as (w' & Hrun & _ & _ & _ & _ & Hdup & _).
  exists w', (duplicates_of batch (pool_map pool (tasks_of batch))).
  split_and!; [done|done|apply elem_of_duplicates_of|].
  unfold duplicates_of. etrans; [apply length_omap_le|].
  rewrite length_zip_with. lia.
Qed.

Lemma commit_records_flagged_pairs_witness :
  Forall (λ o, is_triple o = true) batch_01_02 ∧
  (length (pool_map pool_eq (tasks_of batch_01_02)) ≤ length batch_01_02)%nat ∧
  ∃ w' duplicates,
    run (process_batch pool_eq batch_01_02 0 "") (boot ∅) = (Ok tt, w') ∧
    files w' !! duplicates_file "" 0 = Some (Pickled (PPairs duplicates)) ∧
    (0, 1) ∈ duplicates ∧ (0, 2) ∉ duplicates.
Proof.
  assert (Hbatch : Forall (λ o, is_triple o = true) batch_01_02)
    by (repeat constructor).
  assert (Hlen : (length (pool_map pool_eq (tasks_of batch_01_02))
                  ≤ length batch_01_02)%nat) by (vm_compute; lia).
  split_and!; [done|done|].
  destruct (commit_records_flagged_pairs pool_eq batch_01_02 0 "" ∅ Hbatch Hlen)
    as (w' & duplicates & Hrun & Hfile & Hmem & _).
  exists w', duplicates. split_and!; [done|done|..].
  - apply Hmem. by exists 0%nat, [7; 7], [7; 7].
  - intros (i & m1 & m2 & Hb & Hr)%Hmem.
    destruct i as [|[|i]]; simpl in Hb; discriminate.
Defined.

Lemma process_batch_frame (pool : Pool) (batch : list pyobj) (start_offset : Z)
    (wd : string) (fs : gmap string content) (p : string) :
  Forall (λ o, is_triple o = true) batch →
  (length (pool_map pool (tasks_of batch)) ≤ length batch)%nat →
  p ≠ transaction_lock wd → p ≠ checkpoint_temp_file wd →
  p ≠ checkpoint_old_file wd → p ≠ checkpoint_file wd →
  p ≠ duplicates_file wd start_offset →
  ∃ w',
    run (process_batch pool batch start_offset wd) (boot fs) = (Ok tt, w') ∧
    files w' !! p = fs !! p.
Proof.
  intros Hbatch Hlen Hp1 Hp2 Hp3 Hp4 Hp5.
  unfold process_batch. unfold_run.
  rewrite (build_tasks_run batch [] _ Hbatch). simpl.
  destruct (fs !! transaction_lock wd) eqn:Hlock; simpl;
    rewrite (collect_duplicates_run batch _ Hbatch 0%nat) by (simpl; lia);
    simpl; rewrite drop_0;
    destruct (fs !! checkpoint_file wd) eqn:Hckpt;
    exec; eexists; (split; [reflexivity|]); simpl; by lookups.
Qed.

(** X6. A commit changes nothing but the lock, the three checkpoint files
    and its own duplicate file: the pair file, the shards and the duplicate
    files of other batches hold afterwards what they held before. *)
Theorem commit_touches_own_files_only (pool : Pool) (batch : list pyobj)
    (start_offset : Z) (wd : string) (fs : gmap string content) :
  Forall (λ o, is_triple o = true) batch →
  (length (pool_map pool (tasks_of batch)) ≤ length batch)%nat →
  ∃ w',
    run (process_batch pool batch start_offset wd) (boot fs) = (Ok tt, w') ∧
    ∀ p, p ∉ [transaction_lock wd; checkpoint_temp_file wd; checkpoint_old_file wd;
              checkpoint_file wd; duplicates_file wd start_offset] →
         files w' !! p = fs !! p.
Proof.
  intros Hbatch Hlen.
  destruct (process_batch_run pool batch start_offset wd fs Hbatch Hlen)
    as (w' & Hrun & _).
  exists w'. split; [done|]. intros p Hp.
  rewrite !not_elem_of_cons in Hp. destruct Hp as (H1 & H2 & H3 & H4 & H5 & _).
  destruct (process_batch_frame pool batch start_offset wd fs p Hbatch Hlen
              H1 H2 H3 H4 H5) as (w'' & Hrun' & Hp).
  rewrite Hrun in Hrun'. by injection Hrun' as <-.
Qed.

Lemma commit_touches_own_files_only_witness :
  Forall (λ o, is_triple o = true) batch_01_02 ∧
  (length (pool_map pool_eq (tasks_of batch_01_02)) ≤ length batch_01_02)%nat ∧
  ∃ w',
    run (process_batch pool_eq batch_01_02 2 "") (boot dir_one_commit) = (Ok tt, w') ∧
    files w' !! "duplicates_0.pkl" = Some (Pickled (PPairs [(0, 1)])).
Proof.
  assert (Hbatch : Forall (λ o, is_triple o = true) batch_01_02)
    by (repeat constructor).
  assert (Hlen : (length (pool_map pool_eq (tasks_of batch_01_02))
                  ≤ length batch_01_02)%nat) by (vm_compute; lia).
  split_and!; [done|done|].
  destruct (commit_touches_own_files_only pool_eq batch_01_02 2 "" dir_one_commit
              Hbatch Hlen) as (w' & Hrun & Hframe).
  exists w'. split; [done|]. rewrite Hframe; [by vm_compute|].
  rewrite !not_elem_of_cons. split_and!; try (vm_compute; discriminate).
  apply not_elem_of_nil.
Defined.



(** The second commit, killed between its two renames, and repaired. *)
Lemma commit_crash_safe_witness :
  Forall (λ o, is_triple o = true) batch_01_02 ∧
  (length (pool_map pool_eq (tasks_of batch_01_02)) ≤ length batch_01_02)%nat ∧
  dir_one_commit !! transaction_lock "" = None ∧
  dir_one_commit !! checkpoint_temp_file "" = None ∧
  dir_one_commit !! checkpoint_old_file "" = None ∧
  ∃ w',
    run (main_recover "")
      (boot (files (run (process_batch pool_eq batch_01_02 2 "")
                      (boot_kill 7 dir_one_commit)).2))
    = (Ok tt, w') ∧
    (files w' !! checkpoint_file "" = Some (Pickled (PInt 2)) ∨
     files w' !! checkpoint_file "" = Some (Pickled (PInt 4))).
Proof.
  assert (Hbatch : Forall (λ o, is_triple o = true) batch_01_02)
    by (repeat constructor).
  assert (Hlen : (length (pool_map pool_eq (tasks_of batch_01_02))
                  ≤ length batch_01_02)%nat) by (vm_compute; lia).
  assert (H1 : dir_one_commit !! transaction_lock "" = None) by (by vm_compute).
  assert (H2 : dir_one_commit !! checkpoint_temp_file "" = None) by (by vm_compute).
  assert (H3 : dir_one_commit !! checkpoint_old_file "" = None) by (by vm_compute).
  split_and!; try done.
  exact (commit_crash_safe pool_eq batch_01_02 2 "" dir_one_commit 7
           Hbatch Hlen H1 H2 H3).
Defined.

(** X9. A commit that starts with a checkpoint [c] and a backup [c0] left by
    an earlier commit, killed after [k] calls and followed by recovery:
    killed before the temporary file is opened the checkpoint is still [c];
    killed after that and before the first rename, recovery puts the older
    backup [c0] in the checkpoint slot; killed between the renames the
    checkpoint is [c] again; after both renames it is the new value. *)
Theorem commit_kill_with_backup (pool : Pool) (batch : list pyobj)
    (start_offset : Z) (wd : string) (fs : gmap string content) (k : nat)
    (c c0 : content) :
  Forall (λ o, is_triple o = true) batch →
  (length (pool_map pool (tasks_of batch)) ≤ length batch)%nat →
  fs !! transaction_lock wd = None →
  fs !! checkpoint_temp_file wd = None →
  fs !! checkpoint_file wd = Some c →
  fs !! checkpoint_old_file wd = Some c0 →
  ∃ w',
    run (main_recover wd)
      (boot (files (run (process_batch pool batch start_offset wd) (boot_kill k fs)).2))
    = (Ok tt, w') ∧
    ((k ≤ 3)%nat → files w' !! checkpoint_file wd = Some c) ∧
    ((4 ≤ k ≤ 6)%nat → files w' !! checkpoint_file wd = Some c0) ∧
    (k = 7%nat → files w' !! checkpoint_file wd = Some c) ∧
    ((8 ≤ k)%nat →
     files w' !! checkpoint_file wd
     = Some (Pickled (PInt (start_offset + Z.of_nat (length batch))))).
Proof.
  intros Hbatch Hlen Hlock Htemp Hckpt Hold.
  eexists. split; [apply main_recover_run|].
  simpl. unfold process_batch, recovered. unfold_run.
  rewrite (build_tasks_run batch [] _ Hbatch). simpl.
  destruct k as [|k]; simpl.
  { rewrite Hlock. split_and!; intros; try lia; done. }
  rewrite Hlock. simpl.
  rewrite (collect_duplicates_run batch _ Hbatch 0%nat) by (simpl; lia). simpl.
  do 8 (destruct k as [|k];
        [exec; split_and!; intros; try lia; by lookups|]).
  exec; split_and!; intros; try lia; by lookups.
Qed.

Lemma commit_kill_with_backup_witness :
  Forall (λ o, is_triple o = true) batch_01_02 ∧
  (length (pool_map pool_eq (tasks_of batch_01_02)) ≤ length batch_01_02)%nat ∧
  dir_two_commits !! transaction_lock "" = None ∧
  dir_two_commits !! checkpoint_temp_file "" = None ∧
  dir_two_commits !! checkpoint_file "" = Some (Pickled (PInt 4)) ∧
  dir_two_commits !! checkpoint_old_file "" = Some (Pickled (PInt 2)) ∧
  ∃ w',
    run (main_recover "")
      (boot (files (run (process_batch pool_eq batch_01_02 4 "")
                      (boot_kill 5 dir_two_commits)).2))
    = (Ok tt, w') ∧
    files w' !! checkpoint_file "" = Some (Pickled (PInt 2)).
Proof.
  assert (Hbatch : Forall (λ o, is_triple o = true) batch_01_02)
    by (repeat constructor).
  assert (Hlen : (length (pool_map pool_eq (tasks_of batch_01_02))
                  ≤ length batch_01_02)%nat) by (vm_compute; lia).
  assert (H1 : dir_two_commits !! transaction_lock "" = None) by (by vm_compute).
  assert (H2 : dir_two_commits !! checkpoint_temp_file "" = None) by (by vm_compute).
  assert (H3 : dir_two_commits !! checkpoint_file "" = Some (Pickled (PInt 4)))
    by (by vm_compute).
  assert (H4 : dir_two_commits !! checkpoint_old_file "" = Some (Pickled (PInt 2)))
    by (by vm_compute).
  split_and!; try done.
  destruct (commit_kill_with_backup pool_eq batch_01_02 4 "" dir_two_commits 5
              _ _ Hbatch Hlen H1 H2 H3 H4) as (w' & Hrun & _ & Hmid & _).
  exists w'. split; [exact Hrun|]. apply Hmid. lia.
Defined.

(** X10. A batch with an entry that is not a (pair, fingerprint,
    fingerprint) triple is refused before the transaction starts:
    [process_batch] raises while it builds the tasks, no call has been
    issued, and in particular no lock is left behind. *)
Theorem commit_refuses_malformed_batch (pool : Pool) (batch : list pyobj)
    (start_offset : Z) (wd : string) (w : World) :
  Exists (λ o, is_triple o = false) batch →
  ∃ e,
    run (process_batch pool batch start_offset wd) w = (Raise e, w) ∧
    (e = ValueError ∨ e = TypeError).
Proof.
  intros Hbad.
  assert (Htasks : ∀ tasks, ∃ e, build_tasks batch tasks w = (Raise e, w)
                             ∧ (e = ValueError ∨ e = TypeError)).
  { induction batch as [|o rest IH]; intros tasks.
    - by apply Exists_nil in Hbad.
    - destruct o as [p|m|p m1 m2].
      + exists ValueError. split; [done|by left].
      + exists TypeError. split; [done|by right].
      + apply Exists_cons in Hbad as [Hbad|Hbad]; [discriminate|].
        destruct (IH Hbad (tasks ++ [(p, m1, m2)])) as (e & Hrun & He).
        exists e. split; [|done]. simpl. unfold mbind, M_bind. simpl. exact Hrun. }
  destruct (Htasks []) as (e & Hrun & He).
  exists e. split; [|done].
  unfold process_batch, run, mbind, M_bind. by rewrite Hrun.
Qed.

Lemma commit_refuses_malformed_batch_witness :
  Exists (λ o, is_triple o = false) [OTriple (0, 1) [7] [7]; OPair (0, 2)] ∧
  run (process_batch pool_eq [OTriple (0, 1) [7] [7]; OPair (0, 2)] 0 "") (boot ∅)
  = (Raise ValueError, boot ∅).
Proof.
  assert (Hbad : Exists (λ o, is_triple o = false)
                   [OTriple (0, 1) [7] [7]; OPair (0, 2)])
    by (apply Exists_cons_tl, Exists_cons_hd; reflexivity).
  split; [exact Hbad|].
  destruct (commit_refuses_malformed_batch pool_eq _ 0 "" (boot ∅) Hbad)
    as (e & Hrun & _).
  assert (He : (Raise ValueError : outcome unit, boot ∅) = (Raise e, boot ∅))
    by exact Hrun.
  injection He as <-. exact Hrun.
Defined.

Lemma collect_duplicates_surplus (batch : list pyobj) (results : list bool) :
  Forall (λ o, is_triple o = true) batch →
  ∀ (i j : nat) (duplicates : list Pair) (w : World),
    (length batch ≤ i + j)%nat → results !! j = Some true →
    collect_duplicates batch i results duplicates w = (Raise IndexError, w).
Proof.
  intros Hbatch.
  induction results as [|r rest IH]; intros i j duplicates w Hlen Hj; [done|].
  simpl. destruct j as [|j]; simpl in Hj.
  - injection Hj as ->. simpl.
    rewrite (lookup_ge_None_2 batch i) by lia. done.
  - destruct r; simpl.
    + destruct (batch !! i) as [o|] eqn:Ho; [|done].
      assert (Htriple : is_triple o = true).
      { rewrite Forall_forall in Hbatch. apply Hbatch.
        apply list_elem_of_lookup. eauto. }
      destruct o as [| |p m1 m2]; try discriminate. simpl.
      unfold mbind, M_bind. simpl. apply (IH (S i) j); [lia|done].
    + apply (IH (S i) j); [lia|done].
Qed.

(** X11. A true result at a position beyond the end of the batch makes
    [process_batch] raise IndexError inside the transaction: nothing has
    been written but the lock, which stays behind. The next recovery, when
    no temporary file is lying there, removes it and the directory is as
    it was before the commit. *)
Theorem commit_surplus_result_leaves_lock (pool : Pool) (batch : list pyobj)
    (start_offset : Z) (wd : string) (fs : gmap string content) (j : nat) :
  Forall (λ o, is_triple o = true) batch →
  (length batch ≤ j)%nat →
  pool_map pool (tasks_of batch) !! j = Some true →
  fs !! transaction_lock wd = None →
  ∃ w,
    run (process_batch pool batch start_offset wd) (boot fs) = (Raise IndexError, w) ∧
    files w = <[transaction_lock wd := Empty]> fs ∧
    log w = [OpTouch (transaction_lock wd)] ∧
    (fs !! checkpoint_temp_file wd = None →
     ∃ w', run (main_recover wd) (boot (files w)) = (Ok tt, w') ∧ files w' = fs).
Proof.
  intros Hbatch Hj Htrue Hlock.
  unfold process_batch. unfold_run.
  rewrite (build_tasks_run batch [] _ Hbatch). simpl. rewrite Hlock. simpl.
  rewrite (collect_duplicates_surplus batch _ Hbatch 0%nat j) by (simpl; done || lia).
  eexists. split_and!; try reflexivity. simpl. intros Htemp.
  eexists. split; [apply main_recover_run|]. simpl.
  unfold recovered. lookups. simpl. by rewrite delete_insert_id.
Qed.

Lemma commit_surplus_result_leaves_lock_witness :
  Forall (λ o, is_triple o = true) batch_01_02 ∧
  (length batch_01_02 ≤ 2)%nat ∧
  pool_map pool_surplus (tasks_of batch_01_02) !! 2%nat = Some true ∧
  (∅ : gmap string content) !! transaction_lock "" = None ∧
  ∃ w,
    run (process_batch pool_surplus batch_01_02 0 "") (boot ∅) = (Raise IndexError, w) ∧
    files w = <[transaction_lock "" := Empty]> ∅.
Proof.
  assert (Hbatch : Forall (λ o, is_triple o = true) batch_01_02)
    by (repeat constructor).
  assert (Hj : (length batch_01_02 ≤ 2)%nat) by (simpl; lia).
  assert (Htrue : pool_map pool_surplus (tasks_of batch_01_02) !! 2%nat = Some true)
    by reflexivity.
  assert (Hlock : (∅ : gmap string content) !! transaction_lock "" = None) by done.
  split_and!; try done.
  destruct (commit_surplus_result_leaves_lock pool_surplus batch_01_02 0 "" ∅ 2
              Hbatch Hj Htrue Hlock) as (w & Hrun & Hfiles & _).
  by exists w.
Defined.

(** X12. Two commits in a row, the second starting where the first ended:
    the checkpoint holds the offset behind both batches, the backup holds
    the offset between them, and both duplicate files are in place, the
    first untouched by the second commit. *)
Theorem two_commits_compose (pool : Pool) (batch1 batch2 : list pyobj)
    (start_offset : Z) (wd : string) (fs : gmap string content) :
  Forall (λ o, is_triple o = true) batch1 →
  Forall (λ o, is_triple o = true) batch2 →
  (length (pool_map pool (tasks_of batch1)) ≤ length batch1)%nat →
  (length (pool_map pool (tasks_of batch2)) ≤ length batch2)%nat →
  batch1 ≠ [] →
  let middle := start_offset + Z.of_nat (length batch1) in
  ∃ w1 w2,
    run (process_batch pool batch1 start_offset wd) (boot fs) = (Ok tt, w1) ∧
    run (process_batch pool batch2 middle wd) (boot (files w1)) = (Ok tt, w2) ∧
    files w2 !! checkpoint_file wd
    = Some (Pickled (PInt (start_offset + Z.of_nat (length (batch1 ++ batch2))))) ∧
    files w2 !! checkpoint_old_file wd = Some (Pickled (PInt middle)) ∧
    files w2 !! duplicates_file wd start_offset
    = Some (Pickled (PPairs (duplicates_of batch1 (pool_map pool (tasks_of batch1))))) ∧
    files w2 !! duplicates_file wd middle
    = Some (Pickled (PPairs (duplicates_of batch2 (pool_map pool (tasks_of batch2))))).
Proof.
  intros Hb1 Hb2 Hl1 Hl2 Hne middle.
  destruct (process_batch_run pool batch1 start_offset wd fs Hb1 Hl1)
    as (w1 & Hrun1 & _ & _ & Hckpt1 & _ & Hdup1 & _).
  destruct (process_batch_run pool batch2 middle wd (files w1) Hb2 Hl2)
    as (w2 & Hrun2 & _ & _ & Hckpt2 & Hold2 & Hdup2 & _).
  assert (Hdiff : duplicates_file wd start_offset ≠ duplicates_file wd middle).
  { intros Heq. apply (proj1 (offset_files_inj wd _ _)) in Heq.
    destruct batch1; [done|]. subst middle. simpl length in Heq. lia. }
  destruct (process_batch_frame pool batch2 middle wd (files w1)
              (duplicates_file wd start_offset) Hb2 Hl2)
    as (w2' & Hrun2' & Hframe); [paths|paths|paths|paths|exact Hdiff|].
  rewrite Hrun2 in Hrun2'. injection Hrun2' as <-.
  exists w1, w2. split_and!; try done.
  - rewrite Hckpt2. subst middle. rewrite length_app. do 3 f_equal. lia.
  - by rewrite Hold2, Hckpt1.
  - by rewrite Hframe.
Qed.

Lemma two_commits_compose_witness :
  Forall (λ o, is_triple o = true) batch_01_02 ∧
  (length (pool_map pool_eq (tasks_of batch_01_02)) ≤ length batch_01_02)%nat ∧
  batch_01_02 ≠ [] ∧
  ∃ w1 w2,
    run (process_batch pool_eq batch_01_02 0 "") (boot ∅) = (Ok tt, w1) ∧
    run (process_batch pool_eq batch_01_02 2 "") (boot (files w1)) = (Ok tt, w2) ∧
    files w2 !! checkpoint_file "" = Some (Pickled (PInt 4)) ∧
    files w2 !! checkpoint_old_file "" = Some (Pickled (PInt 2)).
Proof.
  assert (Hbatch : Forall (λ o, is_triple o = true) batch_01_02)
    by (repeat constructor).
  assert (Hlen : (length (pool_map pool_eq (tasks_of batch_01_02))
                  ≤ length batch_01_02)%nat) by (vm_compute; lia).
  assert (Hne : batch_01_02 ≠ []) by discriminate.
  split_and!; [done|done|done|].
  destruct (two_commits_compose pool_eq batch_01_02 batch_01_02 0 "" ∅
              Hbatch Hbatch Hlen Hlen Hne) as (w1 & w2 & H1 & H2 & H3 & H4 & _).
  exists w1, w2. split_and!; [exact H1|exact H2|exact H3|exact H4].
Defined.

(** X18. A commit repeated with the same batch at the same offset, as after
    a repair, changes no file but [checkpoint_old]: the checkpoint and the
    duplicate file are rewritten with what they held, and [checkpoint_old]
    now holds the value of the checkpoint. *)
Theorem recommit_changes_backup_only (pool : Pool) (batch : list pyobj)
    (start_offset : Z) (wd : string) (fs : gmap string content) :
  Forall (λ o, is_triple o = true) batch →
  (length (pool_map pool (tasks_of batch)) ≤ length batch)%nat →
  ∃ w1 w2,
    run (process_batch pool batch start_offset wd) (boot fs) = (Ok tt, w1) ∧
    run (process_batch pool batch start_offset wd) (boot (files w1)) = (Ok tt, w2) ∧
    (∀ p, p ≠ checkpoint_old_file wd → files w2 !! p = files w1 !! p) ∧
    files w2 !! checkpoint_old_file wd = files w1 !! checkpoint_file wd.
Proof.
  intros Hbatch Hlen.
  destruct (process_batch_run pool batch start_offset wd fs Hbatch Hlen)
    as (w1 & Hrun1 & Hlock1 & Htemp1 & Hckpt1 & _ & Hdup1 & _).
  destruct (process_batch_run pool batch start_offset wd (files w1) Hbatch Hlen)
    as (w2 & Hrun2 & Hlock2 & Htemp2 & Hckpt2 & Hold2 & Hdup2 & _).
  exists w1, w2. split_and!; [done|done| |].
  - intros p Hp.
    destruct (decide (p = transaction_lock wd)) as [->|H1]; [congruence|].
    destruct (decide (p = checkpoint_temp_file wd)) as [->|H2]; [congruence|].
    destruct (decide (p = checkpoint_file wd)) as [->|H3]; [congruence|].
    destruct (decide (p = duplicates_file wd start_offset)) as [->|H4]; [congruence|].
    destruct (process_batch_frame pool batch start_offset wd (files w1) p
                Hbatch Hlen H1 H2 Hp H3 H4) as (w2' & Hrun2' & Hframe).
    rewrite Hrun2 in Hrun2'. by injection Hrun2' as <-.
  - by rewrite Hold2, Hckpt1.
Qed.

Lemma recommit_changes_backup_only_witness :
  Forall (λ o, is_triple o = true) batch_01_02 ∧
  (length (pool_map pool_eq (tasks_of batch_01_02)) ≤ length batch_01_02)%nat ∧
  ∃ w1 w2,
    run (process_batch pool_eq batch_01_02 0 "") (boot ∅) = (Ok tt, w1) ∧
    run (process_batch pool_eq batch_01_02 0 "") (boot (files w1)) = (Ok tt, w2) ∧
    files w2 !! checkpoint_file "" = files w1 !! checkpoint_file "" ∧
    files w2 !! checkpoint_old_file "" = files w1 !! checkpoint_file "".
Proof.
  assert (Hbatch : Forall (λ o, is_triple o = true) batch_01_02)
    by (repeat constructor).
  assert (Hlen : (length (pool_map pool_eq (tasks_of batch_01_02))
                  ≤ length batch_01_02)%nat) by (vm_compute; lia).
  split_and!; [done|done|].
  destruct (recommit_changes_backup_only pool_eq batch_01_02 0 "" ∅ Hbatch Hlen)
    as (w1 & w2 & H1 & H2 & Hsame & Hold).
  exists w1, w2. split_and!; [exact H1|exact H2| |exact Hold].
  apply Hsame. vm_compute. discriminate.
Defined.

(** ** Loading the fingerprints, further *)

Lemma scan_shards_any (ext : Externals) (wd : string) (offsets : list Z)
    (fs : gmap string content) :
  ∀ (minhashes_files : list string) (total : Z) (calls : list Op),
  ∃ r extra,
    scan_shards ext wd offsets minhashes_files total
      {| files := fs; log := calls; kill_after := None |}
    = (r, {| files := fs; log := calls ++ extra; kill_after := None |}) ∧
    Forall (λ o, ∃ p, o = OpGetsize p) extra ∧
    (((∃ total', r = Ok (minhashes_files, total')) ∧
      ∀ offset, offset ∈ offsets → is_Some (fs !! minhashes_file wd offset)) ∨
     (r = Raise FileNotFoundError ∧
      ∃ offset, offset ∈ offsets ∧ fs !! minhashes_file wd offset = None)).
Proof.
  induction offsets as [|offset rest IH]; intros minhashes_files total calls.
  - exists (Ok (minhashes_files, total)), []. rewrite app_nil_r.
    split_and!; [done|done|]. left. split; [by eexists|].
    intros o Ho. by apply elem_of_nil in Ho.
  - simpl. unfold_run. simpl.
    destruct (fs !! minhashes_file wd offset) as [c|] eqn:Hc; simpl.
    + destruct (IH minhashes_files (total + pickled_size ext c)
                  (calls ++ [OpGetsize (minhashes_file wd offset)]))
        as (r & extra & Hrun & Hextra & Hr).
      exists r, (OpGetsize (minhashes_file wd offset) :: extra).
      rewrite Hrun. split_and!.
      * by rewrite <- app_assoc.
      * constructor; [by eexists|done].
      * destruct Hr as [[Hok Hall]|[Hraise (o & Ho & Hnone)]].
        -- left. split; [done|]. intros o [->|Ho]%elem_of_cons; eauto.
        -- right. split; [done|]. exists o. split; [by right|done].
    + exists (Raise FileNotFoundError), [OpGetsize (minhashes_file wd offset)].
      split_and!; [done|repeat constructor; by eexists|].
      right. split; [done|]. exists offset. split; [by left|done].
Qed.

Lemma load_minhashes_any (ext : Externals) (wd : string)
    (fs : gmap string content) (calls : list Op) :
  ∃ r extra,
    load_minhashes ext wd {| files := fs; log := calls; kill_after := None |}
    = (r, {| files := fs; log := calls ++ extra; kill_after := None |}) ∧
    Forall (λ o, ∃ p, o = OpGetsize p) extra ∧
    ((r = Ok [] ∧
      ∀ offset, offset ∈ shard_offsets (num_docs ext) →
                is_Some (fs !! minhashes_file wd offset)) ∨
     (r = Raise FileNotFoundError ∧
      ∃ offset, offset ∈ shard_offsets (num_docs ext) ∧
                fs !! minhashes_file wd offset = None)).
Proof.
  unfold load_minhashes.
  destruct (scan_shards_any ext wd (shard_offsets (num_docs ext)) fs [] 0 calls)
    as (r & extra & Hrun & Hextra & Hr).
  unfold mbind, M_bind. rewrite Hrun.
  destruct Hr as [[[total' ->] Hall]|[-> Hmiss]].
  - exists (Ok []), extra. split_and!; [done|done|]. by left.
  - exists (Raise FileNotFoundError), extra. split_and!; [done|done|]. by right.
Qed.

(** X13. A missing shard is fatal: when one of the expected shard files
    does not exist, [load_minhashes] raises FileNotFoundError; all it has
    done by then is ask for file sizes, and the directory is unchanged. *)
Theorem load_minhashes_missing_shard (ext : Externals) (wd : string)
    (fs : gmap string content) (offset : Z) :
  offset ∈ shard_offsets (num_docs ext) →
  fs !! minhashes_file wd offset = None →
  ∃ w',
    run (load_minhashes ext wd) (boot fs) = (Raise FileNotFoundError, w') ∧
    files w' = fs ∧
    Forall (λ o, ∃ p, o = OpGetsize p) (log w').
Proof.
  intros Hin Hnone.
  destruct (load_minhashes_any ext wd fs []) as (r & extra & Hrun & Hextra & Hr).
  destruct Hr as [[-> Hall]|[-> _]].
  - destruct (Hall offset Hin) as [c Hc]. congruence.
  - eexists. split; [exact Hrun|]. by split.
Qed.

Lemma load_minhashes_missing_shard_witness :
  1000 ∈ shard_offsets (num_docs (ext_small 1001)) ∧
  dir_inputs !! minhashes_file "" 1000 = None ∧
  ∃ w',
    run (load_minhashes (ext_small 1001) "") (boot dir_inputs)
    = (Raise FileNotFoundError, w') ∧ files w' = dir_inputs.
Proof.
  assert (Hin : 1000 ∈ shard_offsets (num_docs (ext_small 1001))).
  { change (shard_offsets (num_docs (ext_small 1001))) with [0; 1000].
    apply elem_of_cons. right. apply elem_of_cons. by left. }
  assert (Hnone : dir_inputs !! minhashes_file "" 1000 = None) by (by vm_compute).
  split_and!; [done|done|].
  destruct (load_minhashes_missing_shard (ext_small 1001) "" dir_inputs 1000 Hin Hnone)
    as (w' & Hrun & Hfiles & _).
  by exists w'.
Defined.

(** ** main as a whole *)

Lemma main_loop_empty_table (pool : Pool) (wd : string)
    (checkpoint_offset next_offset batch_size : Z) (pairs : list Pair) (w : World) :
  ∀ offset,
    main_loop pool [] wd checkpoint_offset next_offset batch_size offset pairs [] w
    = (if Z.max offset checkpoint_offset
          <? Z.min (offset + Z.of_nat (length pairs)) next_offset
       then Raise IndexError else Ok [], w).
Proof.
  induction pairs as [|[index1 index2] rest IH]; intros offset.
  - simpl. rewrite (proj2 (Z.ltb_ge _ _)) by lia. done.
  - simpl main_loop. destruct (offset <? checkpoint_offset) eqn:Hskip.
    + rewrite IH. apply Z.ltb_lt in Hskip. simpl length.
      replace (Z.max (offset + 1) checkpoint_offset) with (Z.max offset checkpoint_offset) by lia.
      replace (offset + 1 + Z.of_nat (length rest)) with (offset + Z.of_nat (S (length rest))) by lia.
      done.
    + apply Z.ltb_ge in Hskip. simpl length.
      destruct (offset <? next_offset) eqn:Hin; simpl.
      * apply Z.ltb_lt in Hin. rewrite (proj2 (Z.ltb_lt _ _)) by lia.
        unfold mbind, M_bind, getitem. simpl.
        destruct (index1 <? 0); simpl;
          (destruct (_ && _) eqn:Hb; [apply andb_true_iff in Hb as [?%Z.leb_le ?%Z.ltb_lt]; lia|done]).
      * apply Z.ltb_ge in Hin. rewrite (proj2 (Z.ltb_ge _ _)) by lia. done.
Qed.

Lemma main_loop_any (pool : Pool) (minhashes : list Minhash) (wd : string)
    (checkpoint_offset next_offset batch_size : Z) (pairs : list Pair) (w : World) :
  ∀ offset,
  ∃ r,
    main_loop pool minhashes wd checkpoint_offset next_offset batch_size offset pairs [] w
    = (r, w) ∧ (r = Ok [] ∨ r = Raise IndexError ∨ r = Raise TypeError).
Proof.
  induction pairs as [|[index1 index2] rest IH]; intros offset.
  - exists (Ok []). by split; [|left].
  - simpl. destruct (offset <? checkpoint_offset); [apply IH|].
    destruct (offset <? next_offset); simpl; [|exists (Ok []); by split; [|left]].
    unfold mbind, M_bind.
    destruct (getitem_run minhashes index1 w) as [[m1 ->]| ->];
      [|exists (Raise IndexError); split; [done|by right; left]].
    destruct (getitem_run minhashes index2 w) as [[m2 ->]| ->];
      [|exists (Raise IndexError); split; [done|by right; left]].
    exists (Raise TypeError). split; [done|by right; right].
Qed.

Lemma main_drive_any (pool : Pool) (minhashes : list Minhash) (wd : string)
    (checkpoint_offset next_offset batch_size : Z) (pairs : list Pair) (w : World) :
  ∃ r,
    main_drive pool minhashes wd checkpoint_offset next_offset batch_size pairs w
    = (r, w) ∧ (r = Ok tt ∨ r = Raise IndexError ∨ r = Raise TypeError).
Proof.
  destruct (main_loop_any pool minhashes wd checkpoint_offset next_offset
              batch_size pairs w 0) as (r & Hrun & Hr).
  unfold main_drive, mbind, M_bind. rewrite Hrun.
  destruct Hr as [-> | [-> | ->]].
  - exists (Ok tt). split; [done|by left].
  - exists (Raise IndexError). split; [done|by right; left].
  - exists (Raise TypeError). split; [done|by right; right].
Qed.

Lemma main_recover_run_from (wd : string) (fs : gmap string content) (calls : list Op) :
  main_recover wd {| files := fs; log := calls; kill_after := None |}
  = (Ok tt, {| files := recovered wd fs; log := calls ++ recovery_calls wd fs;
               kill_after := None |}).
Proof.
  unfold main_recover, recovered, recovery_calls. unfold_run.
  destruct (fs !! transaction_lock wd) eqn:Hlock; [|by exec].
  destruct (fs !! checkpoint_temp_file wd) eqn:Htemp;
    [destruct (fs !! checkpoint_old_file wd) eqn:Hold|];
    exec; by rewrite <- ?app_assoc.
Qed.

Lemma recovery_calls_write_nothing (wd : string) (fs : gmap string content) :
  Forall (λ o, writes o = false) (recovery_calls wd fs).
Proof.
  unfold recovery_calls.
  destruct (fs !! transaction_lock wd); [|by repeat constructor].
  destruct (fs !! checkpoint_temp_file wd);
    [destruct (fs !! checkpoint_old_file wd)|]; by repeat constructor.
Qed.

Lemma main_load_checkpoint_from (wd : string) (range_start : Z)
    (fs : gmap string content) (calls : list Op) :
  ∃ extra,
    main_load_checkpoint wd range_start
      {| files := fs; log := calls; kill_after := None |}
    = (match fs !! checkpoint_file wd with
       | None => Ok range_start
       | Some Empty => Raise EOFError
       | Some (Pickled (PInt n)) => Ok (n + 1)
       | Some (Pickled _) => Raise TypeError
       end, {| files := fs; log := calls ++ extra; kill_after := None |})
    ∧ Forall (λ o, writes o = false) extra.
Proof.
  unfold main_load_checkpoint. unfold_run.
  destruct (fs !! checkpoint_file wd) as [[|[n|l|l]]|] eqn:Hckpt;
    exec; rewrite <- ?app_assoc; eexists; (split; [reflexivity|]);
    by repeat constructor.
Qed.

Lemma getsize_writes_nothing (calls : list Op) :
  Forall (λ o, ∃ p, o = OpGetsize p) calls → Forall (λ o, writes o = false) calls.
Proof. intros H. eapply Forall_impl; [exact H|]. by intros o [p ->]. Qed.

Ltac nowrite :=
  repeat first
    [ assumption
    | apply recovery_calls_write_nothing
    | apply Forall_nil_2
    | apply Forall_app; split
    | apply Forall_cons; split; [reflexivity|] ].

(** X14. [main] never creates a file and never writes into one, whatever
    the directory and the arguments: no call it issues is a touch, an open
    for writing or a dump, and the directory it leaves is the one it found
    or the one recovery makes of it. *)
Theorem main_never_writes (ext : Externals) (wd : string)
    (process_count instance_count instance : Z) (fs : gmap string content) :
  ∃ r w',
    run (main ext wd process_count instance_count instance) (boot fs) = (r, w') ∧
    Forall (λ o, writes o = false) (log w') ∧
    (files w' = fs ∨
     ∃ w1, run (main_recover wd) (boot fs) = (Ok tt, w1) ∧ files w' = files w1).
Proof.
  unfold main, run, boot. unfold mbind at 1, M_bind at 1.
  unfold os_path_exists at 1, syscall at 1. simpl.
  destruct (fs !! os_path_join wd "all_pairs.pkl") as [c|] eqn:Hpairs; simpl;
    [|eexists _, _; split_and!; [done|nowrite|by left]].
  unfold mbind at 1, M_bind at 1. unfold mbind at 1, M_bind at 1.
  unfold pickle_load at 1, syscall at 1. simpl. rewrite Hpairs.
  destruct c as [|[n|pairs|l]]; simpl;
    try (eexists _, _; split_and!; [done|nowrite|by left]).
  unfold mbind at 1, M_bind at 1.
  match goal with
  | |- context [load_minhashes ext wd {| files := fs; log := ?l; kill_after := None |}] =>
      destruct (load_minhashes_any ext wd fs l)
        as (r & extra & Hload & Hextra%getsize_writes_nothing & Hr)
  end.
  rewrite Hload.
  destruct Hr as [[-> _]|[-> _]];
    [|eexists _, _; split_and!; [done|simpl; nowrite|by left]].
  unfold mbind at 1, M_bind at 1.
  destruct (instance_count =? 0); simpl;
    [eexists _, _; split_and!; [done|simpl; nowrite|by left]|].
  unfold mbind at 1, M_bind at 1. rewrite main_recover_run_from.
  unfold mbind at 1, M_bind at 1.
  assert (Hrec : ∃ w1, main_recover wd {| files := fs; log := []; kill_after := None |}
                       = (Ok tt, w1) ∧ recovered wd fs = files w1).
  { eexists. split; [apply (main_recover_run wd fs)|done]. }
  match goal with
  | |- context [main_load_checkpoint wd ?s {| files := ?f; log := ?l; kill_after := None |}] =>
      destruct (main_load_checkpoint_from wd s f l) as (extra' & Hck & Hextra')
  end.
  rewrite Hck.
  destruct (recovered wd fs !! checkpoint_file wd) as [[|[n|l|l]]|];
    try (eexists _, _; split_and!; [done|simpl; nowrite|by right]).
  all: match goal with
       | |- context [main_drive ?p ?t ?d ?c ?n ?b ?ps ?w] =>
           destruct (main_drive_any p t d c n b ps w) as (r & Hdrive & Hr)
       end;
       rewrite Hdrive; exists r; eexists;
       split_and!; [done|simpl; nowrite|by right].
Qed.

(** X15. What a run of [main] comes to when its inputs are in place (the
    pair file, every shard, a non-zero instance count) and the start-up
    resumes at [resume]: if some pair of the list lies at or after [resume]
    and before [next_offset], [main] raises IndexError at the first such
    pair, the table it loaded being empty; otherwise it returns normally.
    Either way the directory is the one the start-up left. *)
Theorem main_outcome (ext : Externals) (wd : string)
    (process_count instance_count instance : Z) (fs : gmap string content)
    (pairs : list Pair) (resume : Z) (w1 : World) :
  fs !! os_path_join wd "all_pairs.pkl" = Some (Pickled (PPairs pairs)) →
  (∀ offset, offset ∈ shard_offsets (num_docs ext) →
             is_Some (fs !! minhashes_file wd offset)) →
  instance_count ≠ 0 →
  run (main_startup wd (offset_start (Z.of_nat (length pairs)) instance_count instance))
    (boot fs) = (Ok resume, w1) →
  ∃ r w',
    run (main ext wd process_count instance_count instance) (boot fs) = (r, w') ∧
    files w' = files w1 ∧
    ((∃ offset, 0 ≤ offset < Z.of_nat (length pairs) ∧
                resume ≤ offset
                < next_offset (Z.of_nat (length pairs)) instance_count instance) →
     r = Raise IndexError) ∧
    ((∀ offset, 0 ≤ offset < Z.of_nat (length pairs) →
                resume ≤ offset →
                next_offset (Z.of_nat (length pairs)) instance_count instance ≤ offset) →
     r = Ok tt).
Proof.
  intros Hpairs Hshards Hic Hstart.
  unfold main_startup in Hstart. rewrite run_bind, main_recover_run in Hstart.
  destruct (main_load_checkpoint_from wd
              (offset_start (Z.of_nat (length pairs)) instance_count instance)
              (recovered wd fs) (recovery_calls wd fs)) as (extra0 & Hck0 & _).
  unfold run in Hstart. cbv beta in Hstart. rewrite Hck0 in Hstart.
  injection Hstart as Hresume <-. simpl.
  unfold main, run, boot. unfold mbind at 1, M_bind at 1.
  unfold os_path_exists at 1, syscall at 1. simpl. rewrite Hpairs. simpl.
  unfold mbind at 1, M_bind at 1. unfold mbind at 1, M_bind at 1.
  unfold pickle_load at 1, syscall at 1. simpl. rewrite Hpairs. simpl.
  unfold mbind at 1, M_bind at 1.
  match goal with
  | |- context [load_minhashes ext wd {| files := fs; log := ?l; kill_after := None |}] =>
      destruct (load_minhashes_any ext wd fs l) as (r & extra & Hload & _ & Hr)
  end.
  rewrite Hload.
  destruct Hr as [[-> _]|[_ (o & Ho & Hnone)]];
    [|destruct (Hshards o Ho); congruence].
  unfold mbind at 1, M_bind at 1.
  rewrite (proj2 (Z.eqb_neq _ _) Hic). simpl.
  unfold mbind at 1, M_bind at 1. rewrite main_recover_run_from.
  unfold mbind at 1, M_bind at 1.
  match goal with
  | |- context [main_load_checkpoint wd ?s {| files := ?f; log := ?l; kill_after := None |}] =>
      destruct (main_load_checkpoint_from wd s f l) as (extra' & Hck & _)
  end.
  rewrite Hck, Hresume.
  unfold main_drive, mbind, M_bind. rewrite main_loop_empty_table.
  destruct (Z.max 0 resume <? Z.min _ _) eqn:Hcond.
  - apply Z.ltb_lt in Hcond. eexists _, _. split_and!; [done|done|done|].
    intros Hnone. specialize (Hnone (Z.max 0 resume)). lia.
  - apply Z.ltb_ge in Hcond. eexists _, _. split_and!; [done|done| |done].
    intros (offset & H1 & H2). lia.
Qed.

Lemma main_outcome_witness :
  (<["all_pairs.pkl" := Pickled (PPairs pairs3)]> dir_one_commit)
    !! os_path_join "" "all_pairs.pkl" = Some (Pickled (PPairs pairs3)) ∧
  (1 : Z) ≠ 0 ∧
  ∃ w',
    run (main (ext_small 0) "" 4 1 0)
      (boot (<["all_pairs.pkl" := Pickled (PPairs pairs3)]> dir_one_commit))
    = (Ok tt, w').
Proof.
  set (fs := <["all_pairs.pkl" := Pickled (PPairs pairs3)]> dir_one_commit).
  assert (Hpairs : fs !! os_path_join "" "all_pairs.pkl" = Some (Pickled (PPairs pairs3)))
    by (by vm_compute).
  assert (Hshards : ∀ offset, offset ∈ shard_offsets (num_docs (ext_small 0)) →
                              is_Some (fs !! minhashes_file "" offset)).
  { intros offset Ho. change (shard_offsets (num_docs (ext_small 0))) with (@nil Z) in Ho.
    by apply elem_of_nil in Ho. }
  assert (Hic : (1 : Z) ≠ 0) by lia.
  assert (Hstart : run (main_startup "" (offset_start (Z.of_nat (length pairs3)) 1 0))
                     (boot fs)
                   = (Ok 3, (run (main_startup ""
                                    (offset_start (Z.of_nat (length pairs3)) 1 0))
                               (boot fs)).2))
    by (vm_compute; reflexivity).
  split_and!; [done|done|].
  destruct (main_outcome (ext_small 0) "" 4 1 0 fs pairs3 3 _ Hpairs Hshards Hic Hstart)
    as (r & w' & Hrun & _ & _ & Hok).
  exists w'. rewrite Hrun. f_equal. apply Hok.
  intros offset Hrange Hresume. simpl in Hrange.
  change (next_offset (Z.of_nat (length pairs3)) 1 0) with 3. lia.
Defined.

(** X16. An instance count of zero stops [main] with ZeroDivisionError
    after the inputs are loaded and before recovery: the directory is
    unchanged, a lock left by an interrupted commit included. *)
Theorem main_zero_instances (ext : Externals) (wd : string)
    (process_count instance : Z) (fs : gmap string content) (pairs : list Pair) :
  fs !! os_path_join wd "all_pairs.pkl" = Some (Pickled (PPairs pairs)) →
  (∀ offset, offset ∈ shard_offsets (num_docs ext) →
             is_Some (fs !! minhashes_file wd offset)) →
  ∃ w',
    run (main ext wd process_count 0 instance) (boot fs) = (Raise ZeroDivisionError, w') ∧
    files w' = fs ∧
    Forall (λ o, modifies o = false) (log w').
Proof.
  intros Hpairs Hshards.
  unfold main, run, boot. unfold mbind at 1, M_bind at 1.
  unfold os_path_exists at 1, syscall at 1. simpl. rewrite Hpairs. simpl.
  unfold mbind at 1, M_bind at 1. unfold mbind at 1, M_bind at 1.
  unfold pickle_load at 1, syscall at 1. simpl. rewrite Hpairs. simpl.
  unfold mbind at 1, M_bind at 1.
  match goal with
  | |- context [load_minhashes ext wd {| files := fs; log := ?l; kill_after := None |}] =>
      destruct (load_minhashes_any ext wd fs l) as (r & extra & Hload & Hextra & Hr)
  end.
  rewrite Hload.
  destruct Hr as [[-> _]|[_ (o & Ho & Hnone)]];
    [|destruct (Hshards o Ho); congruence].
  eexists. split_and!; [done|done|]. simpl.
  repeat (apply Forall_cons; split; [reflexivity|]).
  eapply Forall_impl; [exact Hextra|]. by intros o [p ->].
Qed.

Lemma main_zero_instances_witness :
  dir_inputs !! os_path_join "" "all_pairs.pkl" = Some (Pickled (PPairs pairs3)) ∧
  (∀ offset, offset ∈ shard_offsets (num_docs (ext_small 3)) →
             is_Some (dir_inputs !! minhashes_file "" offset)) ∧
  ∃ w',
    run (main (ext_small 3) "" 4 0 0) (boot dir_inputs) = (Raise ZeroDivisionError, w') ∧
    files w' = dir_inputs.
Proof.
  assert (Hpairs : dir_inputs !! os_path_join "" "all_pairs.pkl"
                   = Some (Pickled (PPairs pairs3))) by (by vm_compute).
  assert (Hshards : ∀ offset, offset ∈ shard_offsets (num_docs (ext_small 3)) →
                              is_Some (dir_inputs !! minhashes_file "" offset)).
  { intros offset Ho. change (shard_offsets (num_docs (ext_small 3))) with [0] in Ho.
    apply list_elem_of_singleton in Ho as ->. vm_compute. eexists; reflexivity. }
  split_and!; [done|done|].
  destruct (main_zero_instances (ext_small 3) "" 4 0 dir_inputs pairs3 Hpairs Hshards)
    as (w' & Hrun & Hfiles & _).
  by exists w'.
Defined.

(** ** The partition, further *)

(** X17. With more instances than pairs the floor division gives zero
    pairs per instance: every instance has the empty range at 0 and no
    offset belongs to any of them. *)
Theorem partition_more_instances_than_pairs (pair_count instance_count : Z) :
  0 ≤ pair_count < instance_count →
  ∀ instance offset,
    offset_start pair_count instance_count instance = 0 ∧
    next_offset pair_count instance_count instance = 0 ∧
    ¬ (offset_start pair_count instance_count instance ≤ offset
       < next_offset pair_count instance_count instance).
Proof.
  intros H instance offset.
  unfold next_offset, offset_start, pairs_per_instance.
  rewrite Z.quot_small by lia. lia.
Qed.

Lemma partition_more_instances_than_pairs_witness :
  0 ≤ 3 < 4 ∧ offset_start 3 4 3 = 0 ∧ next_offset 3 4 3 = 0.
Proof.
  assert (H : 0 ≤ 3 < 4) by lia.
  destruct (partition_more_instances_than_pairs 3 4 H 3 0) as (H1 & H2 & _).
  split_and!; [lia|lia|exact H1|exact H2].
Defined.
